(** * Bluetti BT integration: configuration resolution and polling coordinator

    A shallow embedding of [custom_components/bluetti_bt] (config_flow.py,
    coordinator.py, const.py, types/FullDeviceConfig.py) together with the
    properties stated about it.

    Conventions
    - a Python [dict[str, Any]] is a [gmap string pyval];
    - a Python [str] is a [string];
    - a function that can return or raise yields an [outcome];
    - helpers of the integration whose modules are not part of the sources at
      hand (types/InitialDeviceConfig.py, types/OptionalDeviceConfig.py,
      types/ManufacturerData.py, utils.py) and the calls into Home Assistant
      and bluetti_bt_lib are taken as the fields of an interface record, or
      modelled from the specification where a statement is about them. *)

From Stdlib Require Import ZArith String Ascii List Bool Lia.
From stdpp Require Import base option gmap strings list.

Local Open Scope string_scope.
Local Open Scope Z_scope.

(* ===================================================================== *)
(** * Python values *)
(* ===================================================================== *)

(** The values that travel through the [Any]-typed dictionaries of the
    integration. *)
Inductive pyval : Type :=
  | PyNone
  | PyBool (b : bool)
  | PyInt (n : Z)
  | PyStr (s : string).

#[global] Instance pyval_eq_dec : EqDecision pyval.
Proof. solve_decision. Defined.

(** [v != s] for a string literal [s]: only an equal [str] compares equal to
    a [str]. *)
Definition py_ne_str (v : pyval) (s : string) : bool :=
  match v with
  | PyStr s' => negb (String.eqb s' s)
  | _ => true
  end.

(** [d.get(k, default)]. *)
Definition dict_get (d : gmap string pyval) (k : string) (dflt : pyval) : pyval :=
  default dflt (d !! k).

(** [{**a, **b}]: the keys of [b] win. *)
Definition dict_merge (a b : gmap string pyval) : gmap string pyval := b ∪ a.

(** Exceptions that the modelled code can let escape. *)
Inductive exn : Type :=
  | KeyError (key : string)
  | ConfigEntryNotReady (msg : string) (arg : pyval)
  | OverflowError
  | OtherError (msg : string).

Inductive outcome (A : Type) : Type :=
  | Return (a : A)
  | Raise (e : exn).
Arguments Return {A} a.
Arguments Raise {A} e.

(* ===================================================================== *)
(** * const.py *)
(* ===================================================================== *)

Module const.
Definition DOMAIN : string := "bluetti_bt".
Definition MANUFACTURER : string := "Bluetti".
Definition CONF_OPTIONS : string := "options".
Definition CONF_DEVICE_TYPE : string := "device_type".
Definition DATA_COORDINATOR : string := "coordinator".
Definition DATA_LOCK : string := "lock".
(** [homeassistant.const.CONF_ADDRESS]. *)
Definition CONF_ADDRESS : string := "address".
End const.

(* ===================================================================== *)
(** * The regular-expression substitution of config_flow.py, line 96 *)
(* ===================================================================== *)

Module re.

(** Membership in the character set [A-Z0-9]. *)
Definition in_AZ09 (c : ascii) : bool :=
  let n := nat_of_ascii c in
  ((65 <=? n)%nat && (n <=? 90)%nat) || ((48 <=? n)%nat && (n <=? 57)%nat).

(** [re.sub("[^A-Z0-9]+", repl, s)]: every maximal run of characters
    outside the set is one match and is replaced by [repl]; the other
    characters are copied.  [in_match] tells whether the previous character
    already belongs to the current match. *)
Fixpoint sub_scan (repl : string) (in_match : bool) (s : string) : string :=
  match s with
  | EmptyString => EmptyString
  | String c t =>
      if in_AZ09 c then String c (sub_scan repl false t)
      else (if in_match then EmptyString else repl) ++ sub_scan repl true t
  end.

Definition sub_not_AZ09 (repl s : string) : string := sub_scan repl false s.

(** Keeping exactly the characters of the set, in order. *)
Fixpoint keep_AZ09 (s : string) : string :=
  match s with
  | EmptyString => EmptyString
  | String c t => if in_AZ09 c then String c (keep_AZ09 t) else keep_AZ09 t
  end.

(** All characters of [s] satisfy [p]. *)
Fixpoint forall_chars (p : ascii -> bool) (s : string) : bool :=
  match s with
  | EmptyString => true
  | String c t => p c && forall_chars p t
  end.

End re.

(** [name = re.sub("[^A-Z0-9]+", "", discovery_info.name)] *)
Definition sanitize (name : string) : string := re.sub_not_AZ09 "" name.

(* ===================================================================== *)
(** * types/ *)
(* ===================================================================== *)

(** ** InitialDeviceConfig

    The class itself lives in types/InitialDeviceConfig.py; config_flow.py
    builds it with four positional arguments (lines 107-112) and
    FullDeviceConfig reads and assigns the four attributes below.  The
    attributes are untyped in Python: [address] and [dev_type] receive values
    taken from [Any]-typed dictionaries. *)
Module InitialDeviceConfig.
Record t : Type := mk {
  address : pyval;
  name : string;
  dev_type : pyval;
  use_encryption : bool
}.

(** [initial.dev_type = v] *)
Definition set_dev_type (v : pyval) (i : t) : t :=
  {| address := address i; name := name i;
     dev_type := v; use_encryption := use_encryption i |}.
End InitialDeviceConfig.

(** ** ManufacturerData: the pair built at config_flow.py, lines 65-67. *)
Module ManufacturerData.
Record t : Type := mk {
  dev_type : pyval;
  use_encryption : bool
}.
End ManufacturerData.

(** ** OptionalDeviceConfig *)

(** The default values and the abort reasons of OptionalDeviceConfig are
    constants of types/OptionalDeviceConfig.py; the specification gives them
    no names, only that the three reasons differ. *)
Class OptionalParams : Type := {
  default_polling_interval : Z;
  default_polling_timeout : Z;
  default_max_retries : Z;
  reason_polling_interval : string;
  reason_polling_timeout : string;
  reason_max_retries : string;
  reasons_distinct :
    NoDup [reason_polling_interval; reason_polling_timeout; reason_max_retries]
}.

Module OptionalDeviceConfig.
(** The three attributes read by [FullDeviceConfig.__init__]. *)
Record t : Type := mk {
  polling_interval : Z;
  polling_timeout : Z;
  max_retries : Z
}.

(** Modelled from the spec: the keys of the dictionary encoding, constants of
    types/ that are not among the sources, named after the three settings. *)
Definition CONF_POLLING_INTERVAL : string := "polling_interval".
Definition CONF_POLLING_TIMEOUT : string := "polling_timeout".
Definition CONF_MAX_RETRIES : string := "max_retries".

(** Modelled from the spec: the reading of one setting inside
    [OptionalDeviceConfig.from_dict], which is not among the sources: the
    integer stored under [k], or [dflt] when there is none. *)
Definition get_int (raw : gmap string pyval) (k : string) (dflt : Z) : Z :=
  match raw !! k with
  | Some (PyInt n) => n
  | _ => dflt
  end.

Section WithParams.
Context `{P : OptionalParams}.

(** Modelled from the spec: [OptionalDeviceConfig.from_dict] of
    types/OptionalDeviceConfig.py, which is not among the sources.
    "user-tunable operational parameters: polling_interval,
    polling_timeout, max_retries [...] defaults applied when absent". *)
Definition from_dict (raw : gmap string pyval) : t :=
  {| polling_interval := get_int raw CONF_POLLING_INTERVAL default_polling_interval;
     polling_timeout := get_int raw CONF_POLLING_TIMEOUT default_polling_timeout;
     max_retries := get_int raw CONF_MAX_RETRIES default_max_retries |}.

(** Modelled from the spec: [OptionalDeviceConfig.validate] of
    types/OptionalDeviceConfig.py, which is not among the sources.
    "Validation rejects polling_interval <= 0, polling_timeout <= 0, and
    negative max_retries, returning a distinct named reason for each";
    [None] means that the settings are accepted. *)
Definition validate (c : t) : option string :=
  if polling_interval c <=? 0 then Some reason_polling_interval
  else if polling_timeout c <=? 0 then Some reason_polling_timeout
  else if max_retries c <? 0 then Some reason_max_retries
  else None.
End WithParams.

(** Modelled from the spec: the [as_dict] property of
    types/OptionalDeviceConfig.py, which is not among the sources: the
    "dictionary encoding" of the three settings, a flat key-value record. *)
Definition as_dict (c : t) : gmap string pyval :=
  <[CONF_POLLING_INTERVAL := PyInt (polling_interval c)]>
    (<[CONF_POLLING_TIMEOUT := PyInt (polling_timeout c)]>
       (<[CONF_MAX_RETRIES := PyInt (max_retries c)]> ∅)).
End OptionalDeviceConfig.

(** The helpers of the integration that the modelled modules call and whose
    source files are not at hand.  [MD] is the type of the
    [manufacturer_data] attribute of a discovery record. *)
Class Helpers (MD : Type) : Type := {
  (** [InitialDeviceConfig.from_dict], [None] when the record is unusable *)
  InitialDeviceConfig_from_dict : gmap string pyval -> option InitialDeviceConfig.t;
  (** [InitialDeviceConfig.as_dict] *)
  InitialDeviceConfig_as_dict : InitialDeviceConfig.t -> gmap string pyval;
  (** [ManufacturerData.from_dict] *)
  ManufacturerData_from_dict : MD -> ManufacturerData.t;
  (** [ManufacturerData.as_dict] *)
  ManufacturerData_as_dict : ManufacturerData.t -> MD;
  (** [utils.mac_loggable(address).replace(':', '_')] *)
  mac_loggable_name : pyval -> string
}.

(** ** FullDeviceConfig (types/FullDeviceConfig.py) *)
Module FullDeviceConfig.
Record t : Type := mk {
  address : pyval;
  name : string;
  dev_type : pyval;
  use_encryption : bool;
  polling_interval : Z;
  polling_timeout : Z;
  max_retries : Z
}.

(** [FullDeviceConfig.__init__], lines 9-20. *)
Definition __init__ (initial : InitialDeviceConfig.t)
    (optional : OptionalDeviceConfig.t) : t :=
  {| address := InitialDeviceConfig.address initial;
     name := InitialDeviceConfig.name initial;
     dev_type := InitialDeviceConfig.dev_type initial;
     use_encryption := InitialDeviceConfig.use_encryption initial;
     polling_interval := OptionalDeviceConfig.polling_interval optional;
     polling_timeout := OptionalDeviceConfig.polling_timeout optional;
     max_retries := OptionalDeviceConfig.max_retries optional |}.

Section WithHelpers.
Context {MD : Type} `{H : Helpers MD} `{P : OptionalParams}.

(** [FullDeviceConfig.from_dict], lines 22-36.  The key imported at line 3
    comes from the const module of types/, which is not at hand; it is taken
    to be the device-type key of const.py. *)
Definition from_dict (raw : gmap string pyval) : option t :=
  match InitialDeviceConfig_from_dict raw with
  | None => None
  | Some initial =>
      let initial :=
        match raw !! const.CONF_DEVICE_TYPE with
        | Some v => InitialDeviceConfig.set_dev_type v initial
        | None => initial
        end in
      Some (__init__ initial (OptionalDeviceConfig.from_dict raw))
  end.
End WithHelpers.

(** *** Instances as Python objects

    The class defines neither [__eq__] nor [__hash__]: [a == b] on two
    instances is [object.__eq__], the comparison of identities.  A store
    keeps the attribute values of every instance made so far; a reference
    is the position of the instance in the store. *)
Definition store : Type := list t.
Definition ref : Type := nat.

(** [FullDeviceConfig(initial, optional)]: a new object each time. *)
Definition new (h : store) (initial : InitialDeviceConfig.t)
    (optional : OptionalDeviceConfig.t) : store * ref :=
  ((h ++ [__init__ initial optional])%list, length h).

Definition deref (h : store) (r : ref) : option t := h !! r.

(** [a == b] *)
Definition py_eq (a b : ref) : bool := Nat.eqb a b.

(** The seven attributes of two instances are pairwise equal. *)
Definition same_fields (x y : t) : Prop :=
  address x = address y /\ name x = name y /\ dev_type x = dev_type y /\
  use_encryption x = use_encryption y /\
  polling_interval x = polling_interval y /\
  polling_timeout x = polling_timeout y /\
  max_retries x = max_retries y.
End FullDeviceConfig.

(* ===================================================================== *)
(** * Collaborators: Home Assistant and bluetti_bt_lib *)
(* ===================================================================== *)

(** A discovery record of the host's bluetooth component. *)
Module BluetoothServiceInfoBleak.
Record t (MD : Type) : Type := mk {
  address : string;
  name : string;
  manufacturer_data : MD
}.
Arguments mk {MD} _ _ _.
Arguments address {MD} _.
Arguments name {MD} _.
Arguments manufacturer_data {MD} _.
End BluetoothServiceInfoBleak.

(** What [bluetti_bt_lib.recognize_device] reports about a supported device. *)
Module Recognized.
Record t : Type := mk {
  name : string;
  full_name : string;
  iot_version : pyval;
  encrypted : bool
}.
End Recognized.

(** What the host answers while one step of a flow runs:
    - [discovered]: [bluetooth.async_discovered_service_info(hass)];
    - [configured]: the unique ids of the entries that exist, consulted by
      [_abort_if_unique_id_configured];
    - [in_progress]: the unique ids of the other flows in progress, consulted
      by [async_set_unique_id] unless [raise_on_progress=False];
    - [recognize_device]: the answer of the recogniser for an address,
      [None] when the device is not supported. *)
Record Hass (MD : Type) : Type := mkHass {
  discovered : list (BluetoothServiceInfoBleak.t MD);
  configured : list pyval;
  in_progress : list pyval;
  recognize_device : string -> option Recognized.t
}.
Arguments mkHass {MD} _ _ _ _.
Arguments discovered {MD} _.
Arguments configured {MD} _.
Arguments in_progress {MD} _.
Arguments recognize_device {MD} _ _.

(* ===================================================================== *)
(** * config_flow.py *)
(* ===================================================================== *)

Module config_flow.

Definition AUTO_DETECT : string := "Auto Detect".

Definition DEVICE_OPTIONS : list string :=
  [AUTO_DETECT; "AC2P"; "AC2A"; "EB3A"; "AC200M"; "AC300"; "AC500";
   "EP500"; "EP600"; "EB70"].

(** The forms that the two flows show. *)
Inductive form : Type :=
  | UserForm (choices : gmap string string) (default_type : string)
      (device_options : list string)
  | InitForm (defaults : OptionalDeviceConfig.t) (current_type : pyval)
      (device_options : list string).

Inductive FlowResult : Type :=
  | Abort (reason : string)
  | CreateEntry (title : string) (data : gmap string pyval)
  | ShowForm (step_id : string) (f : form).

(** [name.startswith(("AC", "EB", "EP", "BLUETTI"))] *)
Definition likely_bluetti (name : string) : bool :=
  String.prefix "AC" name || String.prefix "EB" name ||
  String.prefix "EP" name || String.prefix "BLUETTI" name.

(** A step that awaits the recogniser: it has either ended before the
    [await], or it asks about an address and goes on with the answer, which
    is a description of the device, [None] or an exception. *)
Inductive asking (A : Type) : Type :=
  | Done (a : A)
  | AskRecogniser (address : string) (k : outcome (option Recognized.t) -> A).
Arguments Done {A} a.
Arguments AskRecogniser {A} address k.

(** The step run with a recogniser that answers without failing. *)
Definition answer {A : Type} (recognise : string -> option Recognized.t)
    (s : asking A) : A :=
  match s with
  | Done a => a
  | AskRecogniser address k => k (Return (recognise address))
  end.

Section Flows.
Context {MD : Type} `{H : Helpers MD} `{P : OptionalParams}.

Local Abbreviation ServiceInfo := (BluetoothServiceInfoBleak.t MD).

(** The attributes of a [BluettiConfigFlow]; [unique_id] and
    [title_placeholders] belong to the flow context kept by the host. *)
Record BluettiConfigFlow : Type := mkFlow {
  _discovery_info : option ServiceInfo;
  unique_id : option pyval;
  title_placeholders : option string
}.

(** [BluettiConfigFlow.__init__], lines 38-41. *)
Definition new_flow : BluettiConfigFlow :=
  {| _discovery_info := None; unique_id := None; title_placeholders := None |}.

Definition set_unique_id (u : pyval) (self : BluettiConfigFlow) : BluettiConfigFlow :=
  {| _discovery_info := _discovery_info self; unique_id := Some u;
     title_placeholders := title_placeholders self |}.

(** Lines 85-88: the first discovery record with the selected address,
    the record kept by the flow when there is none. *)
Definition select_discovery (self : BluettiConfigFlow) (hass : Hass MD)
    (address : pyval) : option ServiceInfo :=
  match List.find
          (fun si => bool_decide (PyStr (BluetoothServiceInfoBleak.address si) = address))
          (discovered hass) with
  | Some si => Some si
  | None => _discovery_info self
  end.

(** Lines 103-105: the manual selection wins unless it is "Auto Detect". *)
Definition resolve_dev_type (manufacturer_data : ManufacturerData.t)
    (manual_type : pyval) : pyval :=
  if py_ne_str manual_type AUTO_DETECT then manual_type
  else ManufacturerData.dev_type manufacturer_data.

(** Lines 96-112: the InitialDeviceConfig built from a submission. *)
Definition submitted_config (address manual_type : pyval)
    (discovery_info : ServiceInfo) : InitialDeviceConfig.t :=
  let name := sanitize (BluetoothServiceInfoBleak.name discovery_info) in
  let manufacturer_data :=
    ManufacturerData_from_dict
      (BluetoothServiceInfoBleak.manufacturer_data discovery_info) in
  let dev_type := resolve_dev_type manufacturer_data manual_type in
  InitialDeviceConfig.mk address name dev_type
    (ManufacturerData.use_encryption manufacturer_data).

(** Lines 125-132: the selectable devices of the discovery snapshot. *)
Definition scan_choices (service_infos : list ServiceInfo) : gmap string string :=
  foldl
    (fun choices discovery_info =>
       let name := BluetoothServiceInfoBleak.name discovery_info in
       let address := BluetoothServiceInfoBleak.address discovery_info in
       if likely_bluetti name
       then <[address := name ++ " (" ++ address ++ ")"]> choices
       else choices)
    ∅ service_infos.

(** [BluettiConfigFlow.async_step_user], lines 73-146.  An [AbortFlow]
    raised by the host's unique-id check ends the step with that abort. *)
Definition async_step_user (self : BluettiConfigFlow) (hass : Hass MD)
    (user_input : option (gmap string pyval))
    : BluettiConfigFlow * outcome FlowResult :=
  match user_input with
  | Some user_input =>
      match user_input !! const.CONF_ADDRESS with
      | None => (self, Raise (KeyError const.CONF_ADDRESS))
      | Some address =>
          let manual_type :=
            dict_get user_input const.CONF_DEVICE_TYPE (PyStr AUTO_DETECT) in
          match select_discovery self hass address with
          | None => (self, Return (Abort "device_not_found"))
          | Some discovery_info =>
              let self := set_unique_id address self in
              if bool_decide (address ∈ configured hass)
              then (self, Return (Abort "already_configured"))
              else
                let data := submitted_config address manual_type discovery_info in
                let optional := OptionalDeviceConfig.from_dict ∅ in
                (self,
                 Return (CreateEntry (InitialDeviceConfig.name data)
                           (dict_merge (InitialDeviceConfig_as_dict data)
                              (OptionalDeviceConfig.as_dict optional))))
          end
      end
  | None =>
      let choices := scan_choices (discovered hass) in
      if bool_decide (choices = ∅)
      then (self, Return (Abort "no_devices_found"))
      else (self, Return (ShowForm "user"
                            (UserForm choices AUTO_DETECT DEVICE_OPTIONS)))
  end.

(** [BluettiConfigFlow.async_step_bluetooth], lines 43-71. *)
Definition async_step_bluetooth (self : BluettiConfigFlow) (hass : Hass MD)
    (discovery_info : ServiceInfo) : BluettiConfigFlow * outcome FlowResult :=
  let address := BluetoothServiceInfoBleak.address discovery_info in
  if bool_decide (PyStr address ∈ in_progress hass)
  then (self, Return (Abort "already_in_progress"))
  else
    let self := set_unique_id (PyStr address) self in
    if bool_decide (PyStr address ∈ configured hass)
    then (self, Return (Abort "already_configured"))
    else
      match recognize_device hass address with
      | None => (self, Return (Abort "Device type not supported"))
      | Some recognized =>
          let discovery_info :=
            BluetoothServiceInfoBleak.mk address
              (Recognized.full_name recognized)
              (ManufacturerData_as_dict
                 (ManufacturerData.mk (PyStr (Recognized.name recognized))
                    (Recognized.encrypted recognized))) in
          let self :=
            {| _discovery_info := Some discovery_info;
               unique_id := unique_id self;
               title_placeholders :=
                 Some (BluetoothServiceInfoBleak.name discovery_info) |} in
          async_step_user self hass None
      end.

(** [BluettiConfigFlow.async_step_bluetooth], lines 43-71, with the call of
    line 51 made explicit: the two unique-id checks of lines 47-48 end the
    step before the recogniser is asked; after them the recogniser is asked
    about the address of the discovery, and lines 55-71 go on with its
    answer.  An exception of the recogniser leaves the step as it is. *)
Definition async_step_bluetooth_ask (self : BluettiConfigFlow) (hass : Hass MD)
    (discovery_info : ServiceInfo)
    : asking (BluettiConfigFlow * outcome FlowResult) :=
  let address := BluetoothServiceInfoBleak.address discovery_info in
  if bool_decide (PyStr address ∈ in_progress hass)
  then Done (self, Return (Abort "already_in_progress"))
  else
    let self := set_unique_id (PyStr address) self in
    if bool_decide (PyStr address ∈ configured hass)
    then Done (self, Return (Abort "already_configured"))
    else
      AskRecogniser address
        (fun recognized =>
           match recognized with
           | Raise e => (self, Raise e)
           | Return None => (self, Return (Abort "Device type not supported"))
           | Return (Some recognized) =>
               let discovery_info :=
                 BluetoothServiceInfoBleak.mk address
                   (Recognized.full_name recognized)
                   (ManufacturerData_as_dict
                      (ManufacturerData.mk (PyStr (Recognized.name recognized))
                         (Recognized.encrypted recognized))) in
               let self :=
                 {| _discovery_info := Some discovery_info;
                    unique_id := unique_id self;
                    title_placeholders :=
                      Some (BluetoothServiceInfoBleak.name discovery_info) |} in
               async_step_user self hass None
           end).

(** The stored entry that an options flow edits. *)
Record ConfigEntry : Type := mkEntry {
  entry_data : gmap string pyval;
  entry_options : gmap string pyval
}.

(** [OptionsFlowHandler.async_step_init], lines 157-211.  The first
    component is the entry after the calls to [async_update_entry] that
    the step itself makes. *)
Definition async_step_init (config_entry : ConfigEntry)
    (user_input : option (gmap string pyval)) : ConfigEntry * FlowResult :=
  match user_input with
  | Some user_input =>
      let manual_type := dict_get user_input const.CONF_DEVICE_TYPE PyNone in
      let config := OptionalDeviceConfig.from_dict user_input in
      match OptionalDeviceConfig.validate config with
      | Some reason => (config_entry, Abort reason)
      | None =>
          ({| entry_data :=
                dict_merge (entry_data config_entry)
                  (OptionalDeviceConfig.as_dict config);
              entry_options := entry_options config_entry |},
           CreateEntry ""
             (<[const.CONF_DEVICE_TYPE := manual_type]>
                (OptionalDeviceConfig.as_dict config)))
      end
  | None =>
      let defaults := OptionalDeviceConfig.from_dict (entry_data config_entry) in
      let current_type :=
        dict_get (entry_options config_entry) const.CONF_DEVICE_TYPE
          (dict_get (entry_data config_entry) const.CONF_DEVICE_TYPE
             (PyStr AUTO_DETECT)) in
      (config_entry, ShowForm "init" (InitForm defaults current_type DEVICE_OPTIONS))
  end.
End Flows.

End config_flow.

(* ===================================================================== *)
(** * coordinator.py *)
(* ===================================================================== *)

Module coordinator.

Section Coordinator.
(** [Dev]: the device descriptions of bluetti_bt_lib; [T]: what a
    [DeviceReader] reads; [Lock]: the [asyncio.Lock] handed to the
    coordinator. *)
Context {MD : Type} `{H : Helpers MD} {Dev T Lock : Type}.

(** [bluetti_bt_lib.build_device], [None] for an unknown device type. *)
Variable build_device : pyval -> option Dev.

(** [DeviceReaderConfig(timeout, use_encryption)] *)
Record DeviceReaderConfig : Type := mkReaderConfig {
  rc_timeout : Z;
  rc_use_encryption : bool
}.

(** [DeviceReader(address, device, future_builder, config, lock)] *)
Record DeviceReader : Type := mkReader {
  rd_address : pyval;
  rd_device : Dev;
  rd_config : DeviceReaderConfig;
  rd_lock : Lock
}.

(** [timedelta(seconds=s)] for an integer [s]: the number of whole days,
    [s // 86400], must have a magnitude of at most 999999999; otherwise
    [OverflowError] is raised. *)
Definition timedelta_ok (seconds : Z) : bool :=
  (-999999999 <=? seconds / 86400) && (seconds / 86400 <=? 999999999).

(** The calls that the coordinator makes into the host and the library,
    in the order in which it makes them, and the arming of the refresh
    timer by the host.  [EvRead] is the only one during which the library
    takes the lock. *)
Inductive event : Type :=
  | EvSuperInit (logger_name name : string) (update_interval : Z)
  | EvLogInfo (msg : string) (arg : pyval)
  | EvLogWarning (msg : string)
  | EvBuildDevice (dev_type : pyval)
  | EvNewReader (r : DeviceReader)
  | EvRead (r : DeviceReader)
  | EvArmTimer (interval : Z).

Definition is_new_reader (e : event) : bool :=
  match e with EvNewReader _ => true | _ => false end.

Definition takes_lock (e : event) : bool :=
  match e with EvRead _ => true | _ => false end.

Definition arms_timer (e : event) : bool :=
  match e with EvArmTimer _ => true | _ => false end.

(** The attributes of a [PollingCoordinator]: the first three are set by
    [DataUpdateCoordinator.__init__], which arms no timer; the host arms
    one for a coordinator that it has obtained from the constructor. *)
Record PollingCoordinator : Type := mkCoordinator {
  name : string;
  update_interval : Z;
  last_update_success : bool;
  config : FullDeviceConfig.t;
  reader : DeviceReader
}.

Definition logger_name (config : FullDeviceConfig.t) : string :=
  "custom_components.bluetti_bt.coordinator." ++
  mac_loggable_name (FullDeviceConfig.address config).

(** [PollingCoordinator.__init__], lines 20-56: the calls made and either
    the coordinator or the exception.  The arguments of the base constructor
    are evaluated before it is called: [timedelta] at line 33 can raise
    [OverflowError], and then no call has been made. *)
Definition __init__ (config : FullDeviceConfig.t) (lock : Lock)
    : list event * outcome PollingCoordinator :=
  let ev_super :=
    EvSuperInit (logger_name config) "Bluetti polling coordinator"
      (FullDeviceConfig.polling_interval config) in
  let ev_log :=
    EvLogInfo "Creating client for %s" (FullDeviceConfig.dev_type config) in
  let ev_build := EvBuildDevice (FullDeviceConfig.dev_type config) in
  if negb (timedelta_ok (FullDeviceConfig.polling_interval config))
  then ([], Raise OverflowError)
  else
  match build_device (FullDeviceConfig.dev_type config) with
  | None =>
      ([ev_super; ev_log; ev_build],
       Raise (ConfigEntryNotReady "Unsupported Bluetti device type: "
                (FullDeviceConfig.dev_type config)))
  | Some bluetti_device =>
      let r :=
        mkReader (FullDeviceConfig.address config) bluetti_device
          (mkReaderConfig (FullDeviceConfig.polling_timeout config)
             (FullDeviceConfig.use_encryption config))
          lock in
      ([ev_super; ev_log; ev_build; EvNewReader r],
       Return {| name := "Bluetti polling coordinator";
                 update_interval := FullDeviceConfig.polling_interval config;
                 last_update_success := true;
                 config := config;
                 reader := r |})
  end.

(** Modelled from the spec: the host's side of a construction, which is not
    among the sources.  "Idle -> on construction, transitions to Scheduled
    (timer armed for polling_interval)"; "construction-time failures [...]
    prevent the coordinator from being created at all": the refresh timer is
    armed for the coordinator that the constructor returns, and for none
    when the constructor raises. *)
Definition construct (config : FullDeviceConfig.t) (lock : Lock)
    : list event * outcome PollingCoordinator :=
  match __init__ config lock with
  | (calls, Return c) => ((calls ++ [EvArmTimer (update_interval c)])%list, Return c)
  | (calls, Raise e) => (calls, Raise e)
  end.

Definition set_last_update_success (b : bool) (self : PollingCoordinator)
    : PollingCoordinator :=
  {| name := name self; update_interval := update_interval self;
     last_update_success := b; config := config self; reader := reader self |}.

(** What the outside world answers during one tick:
    [bluetooth.async_address_present(hass, address, connectable=True)]
    and the result of [reader.read()], should it be awaited. *)
Record tick : Type := mkTick {
  address_present : bool;
  read_result : outcome (option T)
}.

(** [PollingCoordinator._async_update_data], lines 58-76. *)
Definition _async_update_data (self : PollingCoordinator) (w : tick)
    : PollingCoordinator * list event * outcome (option T) :=
  if bool_decide (address_present w = false)
  then (set_last_update_success false self,
        [EvLogWarning "Device not connected"],
        Return None)
  else (self, [EvRead (reader self)], read_result w).
End Coordinator.

End coordinator.

(* ===================================================================== *)
(** * Concrete collaborators, to run the definitions *)
(* ===================================================================== *)

Module Sample.

(** One choice of defaults and abort reasons. *)
#[export] Instance params : OptionalParams.
Proof.
  refine {| default_polling_interval := 20;
            default_polling_timeout := 45;
            default_max_retries := 5;
            reason_polling_interval := "invalid_polling_interval";
            reason_polling_timeout := "invalid_polling_timeout";
            reason_max_retries := "invalid_max_retries";
            reasons_distinct := _ |}.
  apply (bool_decide_unpack _). vm_compute. exact I.
Defined.

(** A decoder of stored records that needs an address and a name. *)
Definition initial_from_dict (raw : gmap string pyval)
    : option InitialDeviceConfig.t :=
  match raw !! "address", raw !! "name" with
  | Some a, Some (PyStr n) =>
      Some (InitialDeviceConfig.mk a n
              (dict_get raw "type" (PyStr "Unknown"))
              (bool_decide (raw !! "use_encryption" = Some (PyBool true))))
  | _, _ => None
  end.

Definition initial_as_dict (i : InitialDeviceConfig.t) : gmap string pyval :=
  <["address" := InitialDeviceConfig.address i]>
    (<["name" := PyStr (InitialDeviceConfig.name i)]>
       (<["type" := InitialDeviceConfig.dev_type i]>
          (<["use_encryption" := PyBool (InitialDeviceConfig.use_encryption i)]> ∅))).

(** Manufacturer data kept as the pair itself. *)
#[export] Instance helpers : Helpers ManufacturerData.t := {|
  InitialDeviceConfig_from_dict := initial_from_dict;
  InitialDeviceConfig_as_dict := initial_as_dict;
  ManufacturerData_from_dict := fun md => md;
  ManufacturerData_as_dict := fun md => md;
  mac_loggable_name := fun _ => "XX_XX_XX_XX_XX_XX"
|}.

Definition AC300_plain : ManufacturerData.t :=
  ManufacturerData.mk (PyStr "AC300") false.

(** A discovered AC300 whose advertised name has lower-case letters. *)
Definition seen : BluetoothServiceInfoBleak.t ManufacturerData.t :=
  BluetoothServiceInfoBleak.mk "AA:BB:CC:DD:EE:FF" "Bluetti-AC200M_01" AC300_plain.

Definition no_recogniser (_ : string) : option Recognized.t := None.

(** A host that has discovered [seen] and has no entry yet. *)
Definition hass_fresh : Hass ManufacturerData.t :=
  mkHass [seen] [] [] no_recogniser.

(** A host in which the address of [seen] is configured already. *)
Definition hass_configured : Hass ManufacturerData.t :=
  mkHass [seen] [PyStr "AA:BB:CC:DD:EE:FF"] [] no_recogniser.

(** A host that has discovered nothing. *)
Definition hass_empty : Hass ManufacturerData.t :=
  mkHass [] [] [] no_recogniser.

(** Submissions of the setup form. *)
Definition submit (device_type : string) : gmap string pyval :=
  <[const.CONF_ADDRESS := PyStr "AA:BB:CC:DD:EE:FF"]>
    (<[const.CONF_DEVICE_TYPE := PyStr device_type]> ∅).

(** A stored record with a device-type override. *)
Definition stored : gmap string pyval :=
  <["address" := PyStr "AA:BB:CC:DD:EE:FF"]>
    (<["name" := PyStr "AC300"]>
       (<["type" := PyStr "AC300"]>
          (<[const.CONF_DEVICE_TYPE := PyStr "EP600"]> ∅))).

(** A stored record without a name. *)
Definition stored_nameless : gmap string pyval :=
  <["address" := PyStr "AA:BB:CC:DD:EE:FF"]>
    (<[const.CONF_DEVICE_TYPE := PyStr "EP600"]>
       (<[OptionalDeviceConfig.CONF_POLLING_INTERVAL := PyInt 30]> ∅)).

End Sample.

(* ===================================================================== *)
(** * Properties *)
(* ===================================================================== *)

(** ** Python values and dictionaries *)

Lemma py_ne_str_true (v : pyval) (s : string) :
  py_ne_str v s = true <-> v <> PyStr s.
Proof.
  destruct v as [| b | n | s']; simpl; try (split; [discriminate | reflexivity]).
  rewrite negb_true_iff, String.eqb_neq. split; congruence.
Qed.

Lemma py_ne_str_false (v : pyval) (s : string) :
  py_ne_str v s = false <-> v = PyStr s.
Proof.
  destruct v as [| b | n | s']; simpl; try (split; discriminate).
  rewrite negb_false_iff, String.eqb_eq. split; congruence.
Qed.

Lemma dict_get_present (d : gmap string pyval) (k : string) (dflt v : pyval) :
  d !! k = Some v -> dict_get d k dflt = v.
Proof. unfold dict_get. intros ->. reflexivity. Qed.

Lemma dict_get_absent (d : gmap string pyval) (k : string) (dflt : pyval) :
  d !! k = None -> dict_get d k dflt = dflt.
Proof. unfold dict_get. intros ->. reflexivity. Qed.

(** ** Name sanitisation *)

Section Sanitize.
Import re.

(** With the empty replacement, the scan does not depend on whether a
    match is open: it keeps the characters of the set and drops the rest. *)
Lemma sub_scan_empty_repl (s : string) (in_match : bool) :
  sub_scan "" in_match s = keep_AZ09 s.
Proof.
  revert in_match. induction s as [| c t IH]; intros in_match; simpl.
  - reflexivity.
  - destruct (in_AZ09 c).
    + now rewrite IH.
    + destruct in_match; simpl; apply IH.
Qed.

Lemma keep_AZ09_all_in (s : string) : forall_chars in_AZ09 (keep_AZ09 s) = true.
Proof.
  induction s as [| c t IH]; simpl; [reflexivity |].
  destruct (in_AZ09 c) eqn:E; simpl; [rewrite E |]; exact IH.
Qed.

Lemma keep_AZ09_fixed (s : string) :
  forall_chars in_AZ09 s = true -> keep_AZ09 s = s.
Proof.
  induction s as [| c t IH]; simpl; [reflexivity |].
  intros [Hc Ht]%andb_true_iff. rewrite Hc. f_equal. auto.
Qed.

Lemma in_AZ09_lower_case : in_AZ09 "l"%char = false.
Proof. reflexivity. Qed.
End Sanitize.

(** C6, as stated, at its own example: the lower-case letters of
    ["Bluetti-AC200M_01"] are outside [A-Z0-9] and are stripped with the
    dash and the underscore, so the result is not ["BLUETTIAC200M01"]. *)
Lemma sanitize_example_not_upper_cased :
  sanitize "Bluetti-AC200M_01" <> "BLUETTIAC200M01".
Proof. vm_compute. discriminate. Qed.

(** C6, amended: sanitisation keeps exactly the characters of [A-Z0-9], in
    their order: every character of the result is in the set, a name made of
    such characters is unchanged, and ["Bluetti-AC200M_01"] becomes
    ["BAC200M01"]. *)
Theorem sanitize_strips_outside_AZ09 :
  (forall s, sanitize s = re.keep_AZ09 s) /\
  (forall s, re.forall_chars re.in_AZ09 (sanitize s) = true) /\
  (forall s, re.forall_chars re.in_AZ09 s = true -> sanitize s = s) /\
  sanitize "Bluetti-AC200M_01" = "BAC200M01".
Proof.
  assert (E : forall s, sanitize s = re.keep_AZ09 s)
    by (intros s; apply sub_scan_empty_repl).
  split; [exact E | split; [| split]].
  - intros s. rewrite E. apply keep_AZ09_all_in.
  - intros s Hs. rewrite E. now apply keep_AZ09_fixed.
  - reflexivity.
Qed.

Lemma sanitize_strips_outside_AZ09_witness :
  re.forall_chars re.in_AZ09 "AC300" = true /\ sanitize "AC300" = "AC300".
Proof.
  split; [reflexivity |].
  apply (proj1 (proj2 (proj2 sanitize_strips_outside_AZ09))). reflexivity.
Defined.

(** ** OptionalDeviceConfig *)

Section Optional.
Context `{P : OptionalParams}.
Import OptionalDeviceConfig.

Lemma get_int_as_dict (c : t) :
  get_int (as_dict c) CONF_POLLING_INTERVAL default_polling_interval = polling_interval c /\
  get_int (as_dict c) CONF_POLLING_TIMEOUT default_polling_timeout = polling_timeout c /\
  get_int (as_dict c) CONF_MAX_RETRIES default_max_retries = max_retries c.
Proof.
  unfold get_int, as_dict.
  rewrite lookup_insert_eq.
  rewrite lookup_insert_ne, lookup_insert_eq by discriminate.
  rewrite !lookup_insert_ne, lookup_insert_eq by discriminate.
  auto.
Qed.

(** Decoding the encoding of any settings gives them back. *)
Lemma from_dict_as_dict (c : t) : from_dict (as_dict c) = c.
Proof.
  destruct (get_int_as_dict c) as (E1 & E2 & E3).
  unfold from_dict. rewrite E1, E2, E3. now destruct c.
Qed.

(** The settings that [validate] accepts. *)
Lemma validate_None (c : t) :
  validate c = None <->
  0 < polling_interval c /\ 0 < polling_timeout c /\ 0 <= max_retries c.
Proof.
  unfold validate.
  destruct (Z.leb_spec (polling_interval c) 0);
    destruct (Z.leb_spec (polling_timeout c) 0);
    destruct (Z.ltb_spec (max_retries c) 0);
    split; try discriminate; try reflexivity; lia.
Qed.
End Optional.

(** C7: for every valid OptionalDeviceConfig [x], that is one that
    validation accepts, decoding its dictionary encoding reproduces it:
    [from_dict (as_dict x) = x]. *)
Theorem optional_config_roundtrip `{P : OptionalParams}
    (x : OptionalDeviceConfig.t) :
  OptionalDeviceConfig.validate x = None ->
  OptionalDeviceConfig.from_dict (OptionalDeviceConfig.as_dict x) = x.
Proof. intros _. apply from_dict_as_dict. Qed.

Lemma optional_config_roundtrip_witness :
  let x := OptionalDeviceConfig.mk 10 30 3 in
  OptionalDeviceConfig.validate (P := Sample.params) x = None /\
  OptionalDeviceConfig.from_dict (P := Sample.params)
    (OptionalDeviceConfig.as_dict x) = x.
Proof.
  split; [reflexivity |].
  apply (optional_config_roundtrip (P := Sample.params)). reflexivity.
Defined.

(** ** FullDeviceConfig.from_dict *)

(** C10: whenever [InitialDeviceConfig.from_dict] returns [None] for a raw
    dictionary, so does [FullDeviceConfig.from_dict], whatever else the
    dictionary holds (a device-type key, optional settings). *)
Theorem full_from_dict_needs_initial {MD : Type} `{H : Helpers MD}
    `{P : OptionalParams} (raw : gmap string pyval) :
  InitialDeviceConfig_from_dict raw = None ->
  FullDeviceConfig.from_dict raw = None.
Proof. unfold FullDeviceConfig.from_dict. intros ->. reflexivity. Qed.

Lemma full_from_dict_needs_initial_witness :
  Sample.stored_nameless !! const.CONF_DEVICE_TYPE = Some (PyStr "EP600") /\
  Sample.stored_nameless !! OptionalDeviceConfig.CONF_POLLING_INTERVAL = Some (PyInt 30) /\
  FullDeviceConfig.from_dict (H := Sample.helpers) (P := Sample.params)
    Sample.stored_nameless = None.
Proof.
  split; [reflexivity | split; [reflexivity |]].
  apply (full_from_dict_needs_initial (H := Sample.helpers) (P := Sample.params)).
  reflexivity.
Defined.

(** A raw record that has the device-type key is rebuilt with the value
    stored under that key. *)
Lemma full_from_dict_override {MD : Type} `{H : Helpers MD} `{P : OptionalParams}
    (raw : gmap string pyval) (initial : InitialDeviceConfig.t) (v : pyval) :
  InitialDeviceConfig_from_dict raw = Some initial ->
  raw !! const.CONF_DEVICE_TYPE = Some v ->
  FullDeviceConfig.from_dict raw =
    Some (FullDeviceConfig.__init__ (InitialDeviceConfig.set_dev_type v initial)
            (OptionalDeviceConfig.from_dict raw)).
Proof. unfold FullDeviceConfig.from_dict. intros -> ->. reflexivity. Qed.

(** Without the key, the type parsed from the initial data stays. *)
Lemma full_from_dict_no_override {MD : Type} `{H : Helpers MD} `{P : OptionalParams}
    (raw : gmap string pyval) (initial : InitialDeviceConfig.t) :
  InitialDeviceConfig_from_dict raw = Some initial ->
  raw !! const.CONF_DEVICE_TYPE = None ->
  FullDeviceConfig.from_dict raw =
    Some (FullDeviceConfig.__init__ initial (OptionalDeviceConfig.from_dict raw)).
Proof. unfold FullDeviceConfig.from_dict. intros -> ->. reflexivity. Qed.

(** ** The setup flow *)

Section SetupFlow.
Context {MD : Type} `{H : Helpers MD} `{P : OptionalParams}.
Import config_flow.

Lemma resolve_dev_type_manual (md : ManufacturerData.t) (manual_type : pyval) :
  manual_type <> PyStr AUTO_DETECT -> resolve_dev_type md manual_type = manual_type.
Proof.
  intros Hne. unfold resolve_dev_type.
  now rewrite (proj2 (py_ne_str_true _ _) Hne).
Qed.

Lemma resolve_dev_type_auto (md : ManufacturerData.t) :
  resolve_dev_type md (PyStr AUTO_DETECT) = ManufacturerData.dev_type md.
Proof. reflexivity. Qed.

(** A submission whose device is found and is not configured yet creates
    the entry of [submitted_config]. *)
Lemma async_step_user_submit (self : BluettiConfigFlow) (hass : Hass MD)
    (user_input : gmap string pyval) (address : pyval)
    (discovery_info : BluetoothServiceInfoBleak.t MD) :
  user_input !! const.CONF_ADDRESS = Some address ->
  select_discovery self hass address = Some discovery_info ->
  address ∉ configured hass ->
  let initial :=
    submitted_config address
      (dict_get user_input const.CONF_DEVICE_TYPE (PyStr AUTO_DETECT))
      discovery_info in
  async_step_user self hass (Some user_input) =
    (set_unique_id address self,
     Return (CreateEntry (InitialDeviceConfig.name initial)
               (dict_merge (InitialDeviceConfig_as_dict initial)
                  (OptionalDeviceConfig.as_dict (OptionalDeviceConfig.from_dict ∅))))).
Proof.
  intros Ha Hd Hc. unfold async_step_user. rewrite Ha, Hd.
  rewrite bool_decide_eq_false_2 by exact Hc. reflexivity.
Qed.

(** The choices of a scan are empty exactly when no discovered name looks
    like a Bluetti device. *)
Lemma scan_choices_from (acc : gmap string string)
    (l : list (BluetoothServiceInfoBleak.t MD)) :
  foldl
    (fun choices discovery_info =>
       let name := BluetoothServiceInfoBleak.name discovery_info in
       let address := BluetoothServiceInfoBleak.address discovery_info in
       if likely_bluetti name
       then <[address := name ++ " (" ++ address ++ ")"]> choices
       else choices)
    acc l = ∅ <->
  acc = ∅ /\
  Forall (fun si => likely_bluetti (BluetoothServiceInfoBleak.name si) = false) l.
Proof.
  revert acc. induction l as [| si l IH]; intros acc; simpl.
  - split; [intros ->; split; [reflexivity | constructor] | intros [-> _]; reflexivity].
  - rewrite IH. destruct (likely_bluetti (BluetoothServiceInfoBleak.name si)) eqn:E.
    + split.
      * intros [Hins _]. now apply insert_non_empty in Hins.
      * intros [_ Hall]. inversion Hall; congruence.
    + split.
      * intros [-> Hall]. split; [reflexivity | now constructor].
      * intros [-> Hall]. inversion Hall; subst. now split.
Qed.

Lemma scan_choices_empty (l : list (BluetoothServiceInfoBleak.t MD)) :
  scan_choices l = ∅ <->
  Forall (fun si => likely_bluetti (BluetoothServiceInfoBleak.name si) = false) l.
Proof. unfold scan_choices. rewrite scan_choices_from. tauto. Qed.

Lemma likely_bluetti_false (name : string) :
  likely_bluetti name = false <->
  forall p, p ∈ ["AC"; "EB"; "EP"; "BLUETTI"] -> String.prefix p name = false.
Proof.
  unfold likely_bluetti. rewrite !orb_false_iff. split.
  - intros (((H1 & H2) & H3) & H4) p Hp.
    repeat (apply elem_of_cons in Hp as [-> | Hp]; [assumption |]).
    now apply elem_of_nil in Hp.
  - intros Hall. repeat split; apply Hall; set_solver.
Qed.

(** With a candidate in the snapshot the form is shown. *)
Lemma async_step_user_shows_form (self : BluettiConfigFlow) (hass : Hass MD) :
  scan_choices (discovered hass) <> ∅ ->
  async_step_user self hass None =
    (self, Return (ShowForm "user"
                     (UserForm (scan_choices (discovered hass)) AUTO_DETECT
                        DEVICE_OPTIONS))).
Proof.
  intros Hne. unfold async_step_user.
  now rewrite bool_decide_eq_false_2 by exact Hne.
Qed.

(** No discovery record has the address: the record kept by the flow is
    the one selected. *)
Lemma select_discovery_fallback (self : BluettiConfigFlow) (hass : Hass MD)
    (address : pyval) :
  Forall (fun si => PyStr (BluetoothServiceInfoBleak.address si) <> address)
    (discovered hass) ->
  select_discovery self hass address = _discovery_info self.
Proof.
  intros Hall. unfold select_discovery.
  destruct (List.find _ _) as [si |] eqn:E; [| reflexivity].
  apply List.find_some in E as [Hin Hb].
  apply bool_decide_eq_true_1 in Hb.
  rewrite Forall_forall in Hall. exfalso. apply (Hall si); [| exact Hb].
  now apply list_elem_of_In.
Qed.
End SetupFlow.

(** C1: device-type precedence.  For a setup submission that creates an
    entry (the selected device is found and not configured yet), the
    InitialDeviceConfig has the manually selected type whenever that is not
    "Auto Detect", and the type decoded from the manufacturer metadata when
    it is "Auto Detect"; and a raw record with a device-type key is rebuilt
    into a FullDeviceConfig whose type is the value under that key, not the
    type parsed from the initial data. *)
Theorem dev_type_precedence {MD : Type} `{H : Helpers MD} `{P : OptionalParams} :
  (forall (self : config_flow.BluettiConfigFlow) (hass : Hass MD)
          (user_input : gmap string pyval) (address : pyval)
          (discovery_info : BluetoothServiceInfoBleak.t MD),
      user_input !! const.CONF_ADDRESS = Some address ->
      config_flow.select_discovery self hass address = Some discovery_info ->
      address ∉ configured hass ->
      let manual_type :=
        dict_get user_input const.CONF_DEVICE_TYPE (PyStr config_flow.AUTO_DETECT) in
      let recognised :=
        ManufacturerData.dev_type
          (ManufacturerData_from_dict
             (BluetoothServiceInfoBleak.manufacturer_data discovery_info)) in
      let initial := config_flow.submitted_config address manual_type discovery_info in
      config_flow.async_step_user self hass (Some user_input) =
        (config_flow.set_unique_id address self,
         Return (config_flow.CreateEntry (InitialDeviceConfig.name initial)
                   (dict_merge (InitialDeviceConfig_as_dict initial)
                      (OptionalDeviceConfig.as_dict
                         (OptionalDeviceConfig.from_dict ∅))))) /\
      (manual_type <> PyStr config_flow.AUTO_DETECT ->
       InitialDeviceConfig.dev_type initial = manual_type) /\
      (manual_type = PyStr config_flow.AUTO_DETECT ->
       InitialDeviceConfig.dev_type initial = recognised)) /\
  (forall (raw : gmap string pyval) (initial : InitialDeviceConfig.t) (v : pyval),
      InitialDeviceConfig_from_dict raw = Some initial ->
      raw !! const.CONF_DEVICE_TYPE = Some v ->
      exists full,
        FullDeviceConfig.from_dict raw = Some full /\
        FullDeviceConfig.dev_type full = v).
Proof.
  split.
  - intros self hass user_input address di Ha Hd Hc manual_type recognised initial.
    split; [now apply async_step_user_submit |].
    subst initial recognised. unfold config_flow.submitted_config. simpl. split.
    + apply resolve_dev_type_manual.
    + intros ->. apply resolve_dev_type_auto.
  - intros raw initial v Hi Hv. eexists. split.
    + exact (full_from_dict_override raw initial v Hi Hv).
    + reflexivity.
Qed.

Lemma dev_type_precedence_witness :
  (* the user picks EP500 for a device advertised as AC300 *)
  (exists self' title data,
      config_flow.async_step_user (H := Sample.helpers) (P := Sample.params)
        config_flow.new_flow Sample.hass_fresh (Some (Sample.submit "EP500")) =
        (self', Return (config_flow.CreateEntry title data)) /\
      data !! "type" = Some (PyStr "EP500")) /\
  (* the user leaves "Auto Detect" *)
  (exists self' title data,
      config_flow.async_step_user (H := Sample.helpers) (P := Sample.params)
        config_flow.new_flow Sample.hass_fresh (Some (Sample.submit "Auto Detect")) =
        (self', Return (config_flow.CreateEntry title data)) /\
      data !! "type" = Some (PyStr "AC300")) /\
  (* a stored AC300 with the override EP600 *)
  (exists full,
      FullDeviceConfig.from_dict (H := Sample.helpers) (P := Sample.params)
        Sample.stored = Some full /\
      FullDeviceConfig.dev_type full = PyStr "EP600").
Proof.
  pose proof (dev_type_precedence (H := Sample.helpers) (P := Sample.params))
    as [Hsubmit Hraw].
  split; [| split].
  - destruct (Hsubmit config_flow.new_flow Sample.hass_fresh (Sample.submit "EP500")
                (PyStr "AA:BB:CC:DD:EE:FF") Sample.seen) as (E & _ & _).
    + reflexivity.
    + reflexivity.
    + vm_compute. intros Hin. inversion Hin.
    + do 3 eexists. split; [exact E | reflexivity].
  - destruct (Hsubmit config_flow.new_flow Sample.hass_fresh
                (Sample.submit "Auto Detect")
                (PyStr "AA:BB:CC:DD:EE:FF") Sample.seen) as (E & _ & _).
    + reflexivity.
    + reflexivity.
    + vm_compute. intros Hin. inversion Hin.
    + do 3 eexists. split; [exact E | reflexivity].
  - apply (Hraw Sample.stored
             (InitialDeviceConfig.mk (PyStr "AA:BB:CC:DD:EE:FF") "AC300"
                (PyStr "AC300") false)); reflexivity.
Defined.

(** C9: with no user input and a discovery snapshot in which no name starts
    with "AC", "EB", "EP" or "BLUETTI", the setup step aborts with
    "no_devices_found" and shows no form; and a submission whose address
    matches no discovery record, in a flow that keeps no discovery record,
    aborts with "device_not_found". *)
Theorem setup_aborts_without_device {MD : Type} `{H : Helpers MD}
    `{P : OptionalParams} :
  (forall (self : config_flow.BluettiConfigFlow) (hass : Hass MD),
      Forall (fun si =>
                forall p, p ∈ ["AC"; "EB"; "EP"; "BLUETTI"] ->
                          String.prefix p (BluetoothServiceInfoBleak.name si) = false)
        (discovered hass) ->
      config_flow.async_step_user self hass None =
        (self, Return (config_flow.Abort "no_devices_found"))) /\
  (forall (self : config_flow.BluettiConfigFlow) (hass : Hass MD)
          (user_input : gmap string pyval) (address : pyval),
      user_input !! const.CONF_ADDRESS = Some address ->
      Forall (fun si => PyStr (BluetoothServiceInfoBleak.address si) <> address)
        (discovered hass) ->
      config_flow._discovery_info self = None ->
      config_flow.async_step_user self hass (Some user_input) =
        (self, Return (config_flow.Abort "device_not_found"))).
Proof.
  split.
  - intros self hass Hall. unfold config_flow.async_step_user.
    rewrite bool_decide_eq_true_2; [reflexivity |].
    apply scan_choices_empty. eapply Forall_impl; [exact Hall |].
    intros si Hsi. now apply likely_bluetti_false.
  - intros self hass user_input address Ha Hall Hnone.
    unfold config_flow.async_step_user. rewrite Ha.
    rewrite select_discovery_fallback by exact Hall. now rewrite Hnone.
Qed.

Lemma setup_aborts_without_device_witness :
  config_flow.async_step_user (H := Sample.helpers) (P := Sample.params)
    config_flow.new_flow
    (mkHass [BluetoothServiceInfoBleak.mk "11:22:33:44:55:66" "Kettle" Sample.AC300_plain]
       [] [] Sample.no_recogniser)
    None =
    (config_flow.new_flow, Return (config_flow.Abort "no_devices_found")) /\
  config_flow.async_step_user (H := Sample.helpers) (P := Sample.params)
    config_flow.new_flow Sample.hass_empty (Some (Sample.submit "AC300")) =
    (config_flow.new_flow, Return (config_flow.Abort "device_not_found")).
Proof.
  pose proof (setup_aborts_without_device (H := Sample.helpers) (P := Sample.params))
    as [Hscan Hsubmit].
  split.
  - apply Hscan. constructor; [| constructor].
    intros p Hp. simpl.
    repeat (apply elem_of_cons in Hp as [-> | Hp]; [reflexivity |]).
    now apply elem_of_nil in Hp.
  - apply (Hsubmit _ _ _ (PyStr "AA:BB:CC:DD:EE:FF")).
    + reflexivity.
    + constructor.
    + reflexivity.
Defined.

(** Run with the recogniser of the host, the step stopped at line 51 is the
    step itself. *)
Lemma async_step_bluetooth_answer {MD : Type} `{H : Helpers MD}
    `{P : OptionalParams} (self : config_flow.BluettiConfigFlow) (hass : Hass MD)
    (discovery_info : BluetoothServiceInfoBleak.t MD) :
  config_flow.answer (recognize_device hass)
    (config_flow.async_step_bluetooth_ask self hass discovery_info) =
  config_flow.async_step_bluetooth self hass discovery_info.
Proof.
  unfold config_flow.async_step_bluetooth_ask, config_flow.async_step_bluetooth.
  repeat case_bool_decide; reflexivity.
Qed.

(** The recogniser is asked exactly for an address that is neither in
    progress in another flow nor configured, and about that address. *)
Lemma async_step_bluetooth_asks {MD : Type} `{H : Helpers MD}
    `{P : OptionalParams} (self : config_flow.BluettiConfigFlow) (hass : Hass MD)
    (discovery_info : BluetoothServiceInfoBleak.t MD) :
  let address := BluetoothServiceInfoBleak.address discovery_info in
  (exists a k,
      config_flow.async_step_bluetooth_ask self hass discovery_info =
        config_flow.AskRecogniser a k) <->
  ((PyStr address ∉ in_progress hass) /\ (PyStr address ∉ configured hass)).
Proof.
  intros address. unfold config_flow.async_step_bluetooth_ask. fold address.
  repeat case_bool_decide; split; try tauto; eauto;
    intros (a & k & [=]).
Qed.

(** C3: for every bluetooth discovery about whose address the recogniser is
    asked and answers [None] (unsupported), the step aborts with the reason
    "Device type not supported", and so creates no InitialDeviceConfig and
    no entry.  The recogniser is asked about the address of the discovery. *)
Theorem bluetooth_step_unsupported {MD : Type} `{H : Helpers MD}
    `{P : OptionalParams} (self : config_flow.BluettiConfigFlow) (hass : Hass MD)
    (discovery_info : BluetoothServiceInfoBleak.t MD) (address : string)
    (k : outcome (option Recognized.t) ->
         config_flow.BluettiConfigFlow * outcome config_flow.FlowResult) :
  config_flow.async_step_bluetooth_ask self hass discovery_info =
    config_flow.AskRecogniser address k ->
  address = BluetoothServiceInfoBleak.address discovery_info /\
  k (Return None) =
    (config_flow.set_unique_id (PyStr address) self,
     Return (config_flow.Abort "Device type not supported")) /\
  (recognize_device hass address = None ->
   config_flow.async_step_bluetooth self hass discovery_info =
     (config_flow.set_unique_id (PyStr address) self,
      Return (config_flow.Abort "Device type not supported"))).
Proof.
  intros Hask.
  pose proof (async_step_bluetooth_answer self hass discovery_info) as Hrun.
  rewrite Hask in Hrun. simpl in Hrun.
  unfold config_flow.async_step_bluetooth_ask in Hask.
  repeat case_bool_decide; try discriminate.
  injection Hask as <- <-. split; [reflexivity |]. split; [reflexivity |].
  intros Hnone. rewrite <- Hrun, Hnone. reflexivity.
Qed.

Lemma bluetooth_step_unsupported_witness :
  config_flow.async_step_bluetooth (H := Sample.helpers) (P := Sample.params)
    config_flow.new_flow Sample.hass_fresh Sample.seen =
    (config_flow.set_unique_id (PyStr "AA:BB:CC:DD:EE:FF") config_flow.new_flow,
     Return (config_flow.Abort "Device type not supported")).
Proof.
  eapply (bluetooth_step_unsupported (H := Sample.helpers) (P := Sample.params)
            config_flow.new_flow Sample.hass_fresh Sample.seen).
  - reflexivity.
  - reflexivity.
Defined.

(** ** The options flow *)

(** The step aborts with the reason that validation gives, and leaves the
    entry as it was. *)
Lemma async_step_init_invalid `{P : OptionalParams}
    (config_entry : config_flow.ConfigEntry) (user_input : gmap string pyval)
    (reason : string) :
  OptionalDeviceConfig.validate (OptionalDeviceConfig.from_dict user_input) = Some reason ->
  config_flow.async_step_init config_entry (Some user_input) =
    (config_entry, config_flow.Abort reason).
Proof. unfold config_flow.async_step_init. intros ->. reflexivity. Qed.

(** Accepted settings are written into the data of the entry. *)
Lemma async_step_init_valid `{P : OptionalParams}
    (config_entry : config_flow.ConfigEntry) (user_input : gmap string pyval) :
  let config := OptionalDeviceConfig.from_dict user_input in
  OptionalDeviceConfig.validate config = None ->
  fst (config_flow.async_step_init config_entry (Some user_input)) =
    {| config_flow.entry_data :=
         dict_merge (config_flow.entry_data config_entry)
           (OptionalDeviceConfig.as_dict config);
       config_flow.entry_options := config_flow.entry_options config_entry |}.
Proof.
  intros config Hv. unfold config_flow.async_step_init. fold config.
  now rewrite Hv.
Qed.

Lemma validate_rejects `{P : OptionalParams} (c : OptionalDeviceConfig.t) :
  OptionalDeviceConfig.polling_interval c <= 0 \/
  OptionalDeviceConfig.polling_timeout c <= 0 \/
  OptionalDeviceConfig.max_retries c < 0 ->
  exists reason,
    OptionalDeviceConfig.validate c = Some reason /\
    reason ∈ [reason_polling_interval; reason_polling_timeout; reason_max_retries].
Proof.
  intros Hbad. unfold OptionalDeviceConfig.validate.
  destruct (Z.leb_spec (OptionalDeviceConfig.polling_interval c) 0);
    [eexists; split; [reflexivity | rewrite !elem_of_cons; auto] |].
  destruct (Z.leb_spec (OptionalDeviceConfig.polling_timeout c) 0);
    [eexists; split; [reflexivity | rewrite !elem_of_cons; auto] |].
  destruct (Z.ltb_spec (OptionalDeviceConfig.max_retries c) 0);
    [eexists; split; [reflexivity | rewrite !elem_of_cons; auto] |].
  lia.
Qed.

Lemma validate_single `{P : OptionalParams} (i t r : Z) :
  (i <= 0 -> 0 < t -> 0 <= r ->
   OptionalDeviceConfig.validate (OptionalDeviceConfig.mk i t r) =
     Some reason_polling_interval) /\
  (0 < i -> t <= 0 -> 0 <= r ->
   OptionalDeviceConfig.validate (OptionalDeviceConfig.mk i t r) =
     Some reason_polling_timeout) /\
  (0 < i -> 0 < t -> r < 0 ->
   OptionalDeviceConfig.validate (OptionalDeviceConfig.mk i t r) =
     Some reason_max_retries).
Proof.
  unfold OptionalDeviceConfig.validate; simpl.
  destruct (Z.leb_spec i 0); destruct (Z.leb_spec t 0); destruct (Z.ltb_spec r 0);
    repeat split; intros; try reflexivity; lia.
Qed.

(** C4: in the options flow, a user input whose settings validation rejects
    with a reason makes the step abort with that reason, with the stored entry
    unchanged; validation rejects [polling_interval <= 0],
    [polling_timeout <= 0] and a negative [max_retries], each of them with
    its own reason when it is the only fault, and the three reasons differ. *)
Theorem options_flow_invalid_settings `{P : OptionalParams} :
  (forall (config_entry : config_flow.ConfigEntry) (user_input : gmap string pyval)
          (reason : string),
      OptionalDeviceConfig.validate (OptionalDeviceConfig.from_dict user_input) =
        Some reason ->
      config_flow.async_step_init config_entry (Some user_input) =
        (config_entry, config_flow.Abort reason)) /\
  (forall (config_entry : config_flow.ConfigEntry) (user_input : gmap string pyval),
      let config := OptionalDeviceConfig.from_dict user_input in
      OptionalDeviceConfig.polling_interval config <= 0 \/
      OptionalDeviceConfig.polling_timeout config <= 0 \/
      OptionalDeviceConfig.max_retries config < 0 ->
      exists reason,
        reason ∈ [reason_polling_interval; reason_polling_timeout; reason_max_retries] /\
        config_flow.async_step_init config_entry (Some user_input) =
          (config_entry, config_flow.Abort reason)) /\
  (forall i t r : Z,
      (i <= 0 -> 0 < t -> 0 <= r ->
       OptionalDeviceConfig.validate (OptionalDeviceConfig.mk i t r) =
         Some reason_polling_interval) /\
      (0 < i -> t <= 0 -> 0 <= r ->
       OptionalDeviceConfig.validate (OptionalDeviceConfig.mk i t r) =
         Some reason_polling_timeout) /\
      (0 < i -> 0 < t -> r < 0 ->
       OptionalDeviceConfig.validate (OptionalDeviceConfig.mk i t r) =
         Some reason_max_retries)) /\
  NoDup [reason_polling_interval; reason_polling_timeout; reason_max_retries].
Proof.
  split; [| split; [| split]].
  - intros config_entry user_input reason. apply async_step_init_invalid.
  - intros config_entry user_input config Hbad.
    destruct (validate_rejects config Hbad) as (reason & Hv & Hin).
    exists reason. split; [exact Hin |]. now apply async_step_init_invalid.
  - exact validate_single.
  - exact reasons_distinct.
Qed.

Lemma options_flow_invalid_settings_witness :
  let stored_entry :=
    config_flow.mkEntry
      (<[OptionalDeviceConfig.CONF_POLLING_INTERVAL := PyInt 20]> ∅) ∅ in
  let user_input : gmap string pyval :=
    <[OptionalDeviceConfig.CONF_POLLING_INTERVAL := PyInt 0]> ∅ in
  config_flow.async_step_init (P := Sample.params) stored_entry (Some user_input) =
    (stored_entry, config_flow.Abort "invalid_polling_interval").
Proof.
  intros stored_entry user_input.
  apply (proj1 (options_flow_invalid_settings (P := Sample.params))).
  reflexivity.
Defined.

(** ** The polling coordinator *)

(** C2: on a tick on which the address is not present, the update returns
    [None] without raising and sets [last_update_success] to [False], and the
    reader is not asked; on a tick on which the address is present, the
    result is what the reader's [read] gives. *)
Theorem update_data_tick {Dev T Lock : Type}
    (self : coordinator.PollingCoordinator (Dev := Dev) (Lock := Lock))
    (w : coordinator.tick (T := T)) :
  (coordinator.address_present w = false ->
   coordinator._async_update_data self w =
     (coordinator.set_last_update_success false self,
      [coordinator.EvLogWarning "Device not connected"],
      Return None) /\
   coordinator.last_update_success
     (fst (fst (coordinator._async_update_data self w))) = false) /\
  (coordinator.address_present w = true ->
   coordinator._async_update_data self w =
     (self, [coordinator.EvRead (coordinator.reader self)],
      coordinator.read_result w)).
Proof.
  unfold coordinator._async_update_data. split; intros ->; simpl; auto.
Qed.

Lemma update_data_tick_witness :
  let r := coordinator.mkReader (Dev := unit) (Lock := nat)
             (PyStr "AA:BB:CC:DD:EE:FF") tt
             (coordinator.mkReaderConfig 45 false) 0%nat in
  let self :=
    coordinator.mkCoordinator "Bluetti polling coordinator" 10 true
      (FullDeviceConfig.mk (PyStr "AA:BB:CC:DD:EE:FF") "AC300" (PyStr "AC300")
         false 10 45 5) r in
  (* tick 1: unreachable, although a read would have raised *)
  snd (coordinator._async_update_data self
         (coordinator.mkTick (T := Z) false (Raise (OtherError "timeout")))) =
    Return None /\
  (* tick 2: reachable *)
  snd (coordinator._async_update_data self
         (coordinator.mkTick (T := Z) true (Return (Some 87)))) =
    Return (Some 87).
Proof.
  intros r self. split.
  - destruct (update_data_tick self
                (coordinator.mkTick (T := Z) false (Raise (OtherError "timeout"))))
      as [Hdown _].
    destruct (Hdown eq_refl) as [-> _]. reflexivity.
  - destruct (update_data_tick self
                (coordinator.mkTick (T := Z) true (Return (Some 87))))
      as [_ Hup].
    rewrite (Hup eq_refl). reflexivity.
Defined.




(** A supported type and an interval that [timedelta] accepts give a
    coordinator whose reader is created last; the host then arms the timer
    with the polling interval. *)
Lemma coordinator_init_supported {MD : Type} `{H : Helpers MD}
    {Dev Lock : Type} (build_device : pyval -> option Dev)
    (config : FullDeviceConfig.t) (lock : Lock) (bluetti_device : Dev) :
  coordinator.timedelta_ok (FullDeviceConfig.polling_interval config) = true ->
  build_device (FullDeviceConfig.dev_type config) = Some bluetti_device ->
  exists c,
    snd (coordinator.__init__ build_device config lock) = Return c /\
    coordinator.config c = config /\
    coordinator.update_interval c = FullDeviceConfig.polling_interval config /\
    coordinator.rd_lock (coordinator.reader c) = lock /\
    last (fst (coordinator.__init__ build_device config lock)) =
      Some (coordinator.EvNewReader (coordinator.reader c)) /\
    last (fst (coordinator.construct build_device config lock)) =
      Some (coordinator.EvArmTimer (FullDeviceConfig.polling_interval config)).
Proof.
  intros Hok Hsome. unfold coordinator.construct, coordinator.__init__.
  rewrite Hok, Hsome. simpl. eexists. repeat split.
Qed.

(** ** FullDeviceConfig instances *)

Lemma same_fields_eq (x y : FullDeviceConfig.t) :
  FullDeviceConfig.same_fields x y <-> x = y.
Proof.
  split.
  - destruct x, y. unfold FullDeviceConfig.same_fields. simpl.
    intros (-> & -> & -> & -> & -> & -> & ->). reflexivity.
  - intros ->. unfold FullDeviceConfig.same_fields. tauto.
Qed.

Lemma py_eq_identity (a b : FullDeviceConfig.ref) :
  FullDeviceConfig.py_eq a b = true <-> a = b.
Proof. unfold FullDeviceConfig.py_eq. apply Nat.eqb_eq. Qed.

Lemma new_deref (h : FullDeviceConfig.store) (initial : InitialDeviceConfig.t)
    (optional : OptionalDeviceConfig.t) :
  let '(h', r) := FullDeviceConfig.new h initial optional in
  FullDeviceConfig.deref h' r = Some (FullDeviceConfig.__init__ initial optional) /\
  (forall r' x, FullDeviceConfig.deref h r' = Some x ->
                FullDeviceConfig.deref h' r' = Some x /\ r' <> r).
Proof.
  unfold FullDeviceConfig.new, FullDeviceConfig.deref,
    FullDeviceConfig.store, FullDeviceConfig.ref in *.
  cbv beta iota. split.
  - rewrite lookup_app_r by lia. now rewrite Nat.sub_diag.
  - intros r' x Hx. split.
    + now apply lookup_app_l_Some.
    + apply lookup_lt_Some in Hx. lia.
Qed.





(* ===================================================================== *)
(** * Further properties of the code *)
(* ===================================================================== *)

(** ** Name sanitisation, continued *)

Section SanitizeAlgebra.
Import re.

Lemma keep_AZ09_app (s1 s2 : string) :
  keep_AZ09 (s1 ++ s2) = keep_AZ09 s1 ++ keep_AZ09 s2.
Proof.
  induction s1 as [| c t IH]; simpl; [reflexivity |].
  destruct (in_AZ09 c); simpl; now rewrite IH.
Qed.

Lemma keep_AZ09_length (s : string) :
  (String.length (keep_AZ09 s) <= String.length s)%nat.
Proof.
  induction s as [| c t IH]; simpl; [lia |].
  destruct (in_AZ09 c); simpl; lia.
Qed.

Lemma keep_AZ09_empty (s : string) :
  keep_AZ09 s = "" <-> forall_chars (fun c => negb (in_AZ09 c)) s = true.
Proof.
  induction s as [| c t IH]; simpl; [tauto |].
  destruct (in_AZ09 c); simpl.
  - split; discriminate.
  - exact IH.
Qed.
End SanitizeAlgebra.

(** Sanitising twice is the same as sanitising once, and the result is never
    longer than the advertised name. *)
Theorem sanitize_idempotent (s : string) :
  sanitize (sanitize s) = sanitize s /\
  (String.length (sanitize s) <= String.length s)%nat.
Proof.
  unfold sanitize, re.sub_not_AZ09. rewrite !sub_scan_empty_repl. split.
  - apply keep_AZ09_fixed, keep_AZ09_all_in.
  - apply keep_AZ09_length.
Qed.

(** The sanitised form of a name made of two parts is the concatenation of
    the sanitised parts. *)
Theorem sanitize_app (s1 s2 : string) :
  sanitize (s1 ++ s2) = sanitize s1 ++ sanitize s2.
Proof.
  unfold sanitize, re.sub_not_AZ09. rewrite !sub_scan_empty_repl.
  apply keep_AZ09_app.
Qed.

(** The sanitised name is empty exactly when the advertised name has no
    character of [A-Z0-9]. *)
Theorem sanitize_empty_iff (s : string) :
  sanitize s = "" <->
  re.forall_chars (fun c => negb (re.in_AZ09 c)) s = true.
Proof.
  unfold sanitize, re.sub_not_AZ09. rewrite sub_scan_empty_repl.
  apply keep_AZ09_empty.
Qed.

(** ** The setup form step, continued *)

Section UserStep.
Context {MD : Type} `{H : Helpers MD} `{P : OptionalParams}.
Import config_flow.

(** The choices after a scan: under an address stands the label of the last
    likely device discovered with that address. *)
Lemma scan_choices_fold (acc : gmap string string)
    (l : list (BluetoothServiceInfoBleak.t MD)) (a : string) :
  foldl
    (fun choices discovery_info =>
       let name := BluetoothServiceInfoBleak.name discovery_info in
       let address := BluetoothServiceInfoBleak.address discovery_info in
       if likely_bluetti name
       then <[address := name ++ " (" ++ address ++ ")"]> choices
       else choices)
    acc l !! a =
  match List.find
          (fun si => likely_bluetti (BluetoothServiceInfoBleak.name si) &&
                     String.eqb (BluetoothServiceInfoBleak.address si) a)
          (rev l) with
  | Some si => Some (BluetoothServiceInfoBleak.name si ++ " (" ++ a ++ ")")
  | None => acc !! a
  end.
Proof.
  induction l as [| si l IH] using rev_ind; [reflexivity |].
  rewrite foldl_app, rev_app_distr. simpl.
  destruct (likely_bluetti (BluetoothServiceInfoBleak.name si)); simpl.
  - destruct (String.eqb_spec (BluetoothServiceInfoBleak.address si) a) as [-> | Hne].
    + now rewrite lookup_insert_eq.
    + rewrite lookup_insert_ne by exact Hne. exact IH.
  - exact IH.
Qed.
End UserStep.

(** The choices of the setup form, by address: the label of the last likely
    device of the snapshot with that address, if there is one. *)
Lemma scan_choices_find {MD : Type}
    (l : list (BluetoothServiceInfoBleak.t MD)) (a : string) :
  config_flow.scan_choices l !! a =
    (fun si => BluetoothServiceInfoBleak.name si ++ " (" ++ a ++ ")") <$>
    List.find
      (fun si => config_flow.likely_bluetti (BluetoothServiceInfoBleak.name si) &&
                 String.eqb (BluetoothServiceInfoBleak.address si) a)
      (rev l).
Proof.
  unfold config_flow.scan_choices. rewrite scan_choices_fold.
  destruct (List.find _ _); [reflexivity | apply lookup_empty].
Qed.

(** When the snapshot holds several likely devices with one address, the
    form offers that address once, labelled with the name of the last of
    them. *)
Theorem scan_choices_last_wins {MD : Type}
    (before after : list (BluetoothServiceInfoBleak.t MD))
    (si : BluetoothServiceInfoBleak.t MD) :
  config_flow.likely_bluetti (BluetoothServiceInfoBleak.name si) = true ->
  Forall (fun x =>
            config_flow.likely_bluetti (BluetoothServiceInfoBleak.name x) = true ->
            BluetoothServiceInfoBleak.address x <> BluetoothServiceInfoBleak.address si)
    after ->
  config_flow.scan_choices (before ++ si :: after)%list
    !! BluetoothServiceInfoBleak.address si =
    Some (BluetoothServiceInfoBleak.name si ++ " (" ++
          BluetoothServiceInfoBleak.address si ++ ")").
Proof.
  intros Hlikely Hafter. rewrite scan_choices_find.
  rewrite rev_app_distr. simpl. rewrite <- app_assoc. simpl.
  induction after as [| x after IH] using rev_ind; simpl.
  - now rewrite Hlikely, String.eqb_refl.
  - apply Forall_app in Hafter as [Hafter Hx]. inversion Hx as [| ? ? Hne _]; subst.
    rewrite rev_app_distr. simpl.
    destruct (config_flow.likely_bluetti (BluetoothServiceInfoBleak.name x)) eqn:E;
      simpl; [| now apply IH].
    rewrite (proj2 (String.eqb_neq _ _) (Hne eq_refl)). now apply IH.
Qed.

Lemma scan_choices_last_wins_witness :
  config_flow.scan_choices
    [BluetoothServiceInfoBleak.mk "AA:BB:CC:DD:EE:FF" "AC300-OLD" Sample.AC300_plain;
     BluetoothServiceInfoBleak.mk "AA:BB:CC:DD:EE:FF" "AC300-NEW" Sample.AC300_plain;
     BluetoothServiceInfoBleak.mk "AA:BB:CC:DD:EE:FF" "Kettle" Sample.AC300_plain]
    !! "AA:BB:CC:DD:EE:FF" = Some "AC300-NEW (AA:BB:CC:DD:EE:FF)".
Proof.
  apply (scan_choices_last_wins
           [BluetoothServiceInfoBleak.mk "AA:BB:CC:DD:EE:FF" "AC300-OLD" Sample.AC300_plain]
           [BluetoothServiceInfoBleak.mk "AA:BB:CC:DD:EE:FF" "Kettle" Sample.AC300_plain]
           (BluetoothServiceInfoBleak.mk "AA:BB:CC:DD:EE:FF" "AC300-NEW" Sample.AC300_plain)).
  - reflexivity.
  - constructor; [| constructor]. simpl. discriminate.
Defined.

(** With a likely device in the snapshot, the step without input shows the
    form, the form offers the address of that device, and every offered
    address belongs to a likely discovered device. *)
Theorem user_form_offers_candidates {MD : Type} `{H : Helpers MD}
    `{P : OptionalParams} (self : config_flow.BluettiConfigFlow) (hass : Hass MD)
    (si : BluetoothServiceInfoBleak.t MD) :
  si ∈ discovered hass ->
  config_flow.likely_bluetti (BluetoothServiceInfoBleak.name si) = true ->
  exists choices,
    config_flow.async_step_user self hass None =
      (self, Return (config_flow.ShowForm "user"
                       (config_flow.UserForm choices config_flow.AUTO_DETECT
                          config_flow.DEVICE_OPTIONS))) /\
    is_Some (choices !! BluetoothServiceInfoBleak.address si) /\
    (forall a label, choices !! a = Some label ->
       exists si', si' ∈ discovered hass /\
                   config_flow.likely_bluetti (BluetoothServiceInfoBleak.name si') = true /\
                   BluetoothServiceInfoBleak.address si' = a /\
                   label = BluetoothServiceInfoBleak.name si' ++ " (" ++ a ++ ")").
Proof.
  intros Hin Hlikely. exists (config_flow.scan_choices (discovered hass)).
  assert (Hoffer : is_Some (config_flow.scan_choices (discovered hass)
                              !! BluetoothServiceInfoBleak.address si)).
  { rewrite scan_choices_find.
    destruct (List.find _ _) as [si' |] eqn:E; [now eexists |].
    assert (Hin' : In si (rev (discovered hass))).
    { apply in_rev. rewrite rev_involutive. now apply list_elem_of_In. }
    pose proof (List.find_none _ _ E si Hin') as Hf. simpl in Hf.
    rewrite Hlikely, String.eqb_refl in Hf. discriminate. }
  split; [| split].
  - apply async_step_user_shows_form. intros He. rewrite He in Hoffer.
    rewrite lookup_empty in Hoffer. now destruct Hoffer.
  - exact Hoffer.
  - intros a label. rewrite scan_choices_find.
    destruct (List.find _ _) as [si' |] eqn:E; [| discriminate].
    intros [= <-]. apply List.find_some in E as [Hin' Hb].
    apply andb_true_iff in Hb as [Hl Ha]. apply String.eqb_eq in Ha.
    exists si'. repeat split; try assumption.
    apply list_elem_of_In. now apply in_rev.
Qed.

Lemma user_form_offers_candidates_witness :
  exists choices,
    snd (config_flow.async_step_user (H := Sample.helpers) (P := Sample.params)
           config_flow.new_flow
           (mkHass [BluetoothServiceInfoBleak.mk "AA:BB:CC:DD:EE:FF" "AC300-77"
                      Sample.AC300_plain] [] [] Sample.no_recogniser)
           None) =
      Return (config_flow.ShowForm "user"
                (config_flow.UserForm choices config_flow.AUTO_DETECT
                   config_flow.DEVICE_OPTIONS)) /\
    is_Some (choices !! "AA:BB:CC:DD:EE:FF").
Proof.
  destruct (user_form_offers_candidates (H := Sample.helpers) (P := Sample.params)
              config_flow.new_flow
              (mkHass [BluetoothServiceInfoBleak.mk "AA:BB:CC:DD:EE:FF" "AC300-77"
                         Sample.AC300_plain] [] [] Sample.no_recogniser)
              (BluetoothServiceInfoBleak.mk "AA:BB:CC:DD:EE:FF" "AC300-77"
                 Sample.AC300_plain))
    as (choices & E & Hoffer & _).
  - apply list_elem_of_here.
  - reflexivity.
  - exists choices. split; [now rewrite E | exact Hoffer].
Defined.

(** What a submission of the setup form can end in: it raises [KeyError]
    exactly when the address key is missing; otherwise it aborts with
    "device_not_found" exactly when no discovery record is selected, aborts
    with "already_configured" exactly when one is selected and the address
    is configured, creates an entry exactly when one is selected and the
    address is not configured; it never shows a form. *)
Theorem submission_outcomes {MD : Type} `{H : Helpers MD} `{P : OptionalParams}
    (self : config_flow.BluettiConfigFlow) (hass : Hass MD)
    (user_input : gmap string pyval) :
  let result := snd (config_flow.async_step_user self hass (Some user_input)) in
  (result = Raise (KeyError const.CONF_ADDRESS) <->
   user_input !! const.CONF_ADDRESS = None) /\
  (forall step f, result <> Return (config_flow.ShowForm step f)) /\
  (forall address, user_input !! const.CONF_ADDRESS = Some address ->
     (result = Return (config_flow.Abort "device_not_found") <->
      config_flow.select_discovery self hass address = None) /\
     (result = Return (config_flow.Abort "already_configured") <->
      is_Some (config_flow.select_discovery self hass address) /\
      address ∈ configured hass) /\
     ((exists title data, result = Return (config_flow.CreateEntry title data)) <->
      is_Some (config_flow.select_discovery self hass address) /\
      address ∉ configured hass)).
Proof.
  intros result. subst result. unfold config_flow.async_step_user.
  destruct (user_input !! const.CONF_ADDRESS) as [address |] eqn:Ha.
  - destruct (config_flow.select_discovery self hass address) as [di |] eqn:Hd;
      [case_bool_decide as Hc |]; simpl;
      (split; [split; discriminate |]); (split; [discriminate |]);
      intros ? [= <-]; rewrite Hd;
      repeat split; intros;
      repeat match goal with
             | Hx : exists _, _ |- _ => destruct Hx
             | Hx : _ /\ _ |- _ => destruct Hx
             | Hx : is_Some None |- _ => destruct Hx
             end;
      try discriminate; try contradiction; try assumption; eauto.
  - simpl. split; [tauto |]. split; discriminate.
Qed.

Lemma submission_outcomes_witness :
  snd (config_flow.async_step_user (H := Sample.helpers) (P := Sample.params)
         config_flow.new_flow Sample.hass_configured (Some (Sample.submit "EP500"))) =
    Return (config_flow.Abort "already_configured") /\
  snd (config_flow.async_step_user (H := Sample.helpers) (P := Sample.params)
         config_flow.new_flow Sample.hass_fresh (Some ∅)) =
    Raise (KeyError const.CONF_ADDRESS).
Proof.
  split.
  - destruct (submission_outcomes (H := Sample.helpers) (P := Sample.params)
                config_flow.new_flow Sample.hass_configured (Sample.submit "EP500"))
      as (_ & _ & Hsub).
    destruct (Hsub (PyStr "AA:BB:CC:DD:EE:FF") eq_refl) as (_ & Hconf & _).
    apply Hconf. split; [now eexists | apply list_elem_of_here].
  - destruct (submission_outcomes (H := Sample.helpers) (P := Sample.params)
                config_flow.new_flow Sample.hass_fresh ∅) as (Hkey & _).
    apply Hkey. reflexivity.
Defined.

(** The discovery record of a submission is the first record of the
    snapshot that has the submitted address, whatever record the flow keeps
    from an earlier bluetooth step. *)
Theorem select_discovery_first_match {MD : Type}
    (self : config_flow.BluettiConfigFlow) (hass : Hass MD)
    (address : pyval) (before after : list (BluetoothServiceInfoBleak.t MD))
    (si : BluetoothServiceInfoBleak.t MD) :
  discovered hass = (before ++ si :: after)%list ->
  Forall (fun x => PyStr (BluetoothServiceInfoBleak.address x) <> address) before ->
  PyStr (BluetoothServiceInfoBleak.address si) = address ->
  config_flow.select_discovery self hass address = Some si.
Proof.
  intros Hd Hbefore Hsi. unfold config_flow.select_discovery.
  rewrite Hd. clear Hd.
  induction before as [| x before IH]; simpl.
  - now rewrite bool_decide_eq_true_2 by exact Hsi.
  - inversion Hbefore as [| ? ? Hx Hrest]; subst.
    rewrite bool_decide_eq_false_2 by exact Hx. now apply IH.
Qed.

Lemma select_discovery_first_match_witness :
  let stale :=
    BluetoothServiceInfoBleak.mk "AA:BB:CC:DD:EE:FF" "EP600-OLD"
      (ManufacturerData.mk (PyStr "EP600") true) in
  let other :=
    BluetoothServiceInfoBleak.mk "11:22:33:44:55:66" "EB3A-1" Sample.AC300_plain in
  config_flow.select_discovery
    (config_flow.mkFlow (Some stale) None None)
    (mkHass [other; Sample.seen] [] [] Sample.no_recogniser)
    (PyStr "AA:BB:CC:DD:EE:FF") = Some Sample.seen.
Proof.
  intros stale other.
  apply (select_discovery_first_match _ _ _ [other] [] Sample.seen).
  - reflexivity.
  - constructor; [discriminate | constructor].
  - reflexivity.
Defined.

(** When no record of the snapshot has the submitted address, the entry is
    built from the record that the flow keeps, with the submitted address:
    the name and the manufacturer data are those of the kept record, whose
    own address is not compared with the submitted one. *)
Theorem submission_uses_kept_record {MD : Type} `{H : Helpers MD}
    `{P : OptionalParams} (self : config_flow.BluettiConfigFlow) (hass : Hass MD)
    (user_input : gmap string pyval) (address : pyval)
    (kept : BluetoothServiceInfoBleak.t MD) :
  user_input !! const.CONF_ADDRESS = Some address ->
  Forall (fun si => PyStr (BluetoothServiceInfoBleak.address si) <> address)
    (discovered hass) ->
  config_flow._discovery_info self = Some kept ->
  address ∉ configured hass ->
  let md :=
    ManufacturerData_from_dict (BluetoothServiceInfoBleak.manufacturer_data kept) in
  let initial :=
    InitialDeviceConfig.mk address
      (sanitize (BluetoothServiceInfoBleak.name kept))
      (config_flow.resolve_dev_type md
         (dict_get user_input const.CONF_DEVICE_TYPE (PyStr config_flow.AUTO_DETECT)))
      (ManufacturerData.use_encryption md) in
  config_flow.async_step_user self hass (Some user_input) =
    (config_flow.set_unique_id address self,
     Return (config_flow.CreateEntry
               (sanitize (BluetoothServiceInfoBleak.name kept))
               (dict_merge (InitialDeviceConfig_as_dict initial)
                  (OptionalDeviceConfig.as_dict
                     (OptionalDeviceConfig.from_dict ∅))))).
Proof.
  intros Ha Hall Hkept Hc md initial.
  apply async_step_user_submit; try assumption.
  now rewrite select_discovery_fallback by exact Hall.
Qed.

Lemma submission_uses_kept_record_witness :
  let kept :=
    BluetoothServiceInfoBleak.mk "11:22:33:44:55:66" "EP600-9"
      (ManufacturerData.mk (PyStr "EP600") true) in
  exists data,
    snd (config_flow.async_step_user (H := Sample.helpers) (P := Sample.params)
           (config_flow.mkFlow (Some kept) None None)
           Sample.hass_empty (Some (Sample.submit "Auto Detect"))) =
      Return (config_flow.CreateEntry "EP6009" data) /\
    data !! "address" = Some (PyStr "AA:BB:CC:DD:EE:FF") /\
    data !! "type" = Some (PyStr "EP600").
Proof.
  intros kept. eexists. split; [| split].
  - rewrite (submission_uses_kept_record (H := Sample.helpers) (P := Sample.params)
               (config_flow.mkFlow (Some kept) None None) Sample.hass_empty
               (Sample.submit "Auto Detect") (PyStr "AA:BB:CC:DD:EE:FF") kept).
    + reflexivity.
    + reflexivity.
    + constructor.
    + reflexivity.
    + intros Hin. inversion Hin.
  - reflexivity.
  - reflexivity.
Defined.

(** A device whose advertised name has no character of [A-Z0-9] is set up
    all the same: the entry is created with the empty title and the empty
    name. *)
Theorem submission_empty_name {MD : Type} `{H : Helpers MD}
    `{P : OptionalParams} (self : config_flow.BluettiConfigFlow) (hass : Hass MD)
    (user_input : gmap string pyval) (address : pyval)
    (discovery_info : BluetoothServiceInfoBleak.t MD) :
  user_input !! const.CONF_ADDRESS = Some address ->
  config_flow.select_discovery self hass address = Some discovery_info ->
  address ∉ configured hass ->
  re.forall_chars (fun c => negb (re.in_AZ09 c))
    (BluetoothServiceInfoBleak.name discovery_info) = true ->
  exists data,
    snd (config_flow.async_step_user self hass (Some user_input)) =
      Return (config_flow.CreateEntry "" data) /\
    InitialDeviceConfig.name
      (config_flow.submitted_config address
         (dict_get user_input const.CONF_DEVICE_TYPE (PyStr config_flow.AUTO_DETECT))
         discovery_info) = "".
Proof.
  intros Ha Hd Hc Hname.
  rewrite (async_step_user_submit self hass user_input address discovery_info Ha Hd Hc).
  assert (Hs : sanitize (BluetoothServiceInfoBleak.name discovery_info) = "").
  { unfold sanitize, re.sub_not_AZ09. rewrite sub_scan_empty_repl.
    now apply keep_AZ09_empty. }
  unfold config_flow.submitted_config. simpl. rewrite Hs. eauto.
Qed.

Lemma submission_empty_name_witness :
  let odd :=
    BluetoothServiceInfoBleak.mk "AA:BB:CC:DD:EE:FF" "bluetti-ac" Sample.AC300_plain in
  exists data,
    snd (config_flow.async_step_user (H := Sample.helpers) (P := Sample.params)
           config_flow.new_flow (mkHass [odd] [] [] Sample.no_recogniser)
           (Some (Sample.submit "AC300"))) =
      Return (config_flow.CreateEntry "" data).
Proof.
  intros odd.
  destruct (submission_empty_name (H := Sample.helpers) (P := Sample.params)
              config_flow.new_flow (mkHass [odd] [] [] Sample.no_recogniser)
              (Sample.submit "AC300") (PyStr "AA:BB:CC:DD:EE:FF") odd)
    as (data & E & _).
  - reflexivity.
  - reflexivity.
  - intros Hin. inversion Hin.
  - reflexivity.
  - exists data. exact E.
Defined.

(** ** The data of a created entry *)

Lemma dict_merge_lookup (a b : gmap string pyval) (k : string) :
  dict_merge a b !! k =
    match b !! k with
    | Some v => Some v
    | None => a !! k
    end.
Proof.
  unfold dict_merge. rewrite lookup_union.
  destruct (b !! k), (a !! k); reflexivity.
Qed.

(** In the entry that a submission creates, a key of the optional settings
    holds the value of the settings decoded from the empty dictionary, also
    when the initial configuration has the same key; every other key holds
    what the initial configuration has under it. *)
Theorem created_entry_data {MD : Type} `{H : Helpers MD} `{P : OptionalParams}
    (self : config_flow.BluettiConfigFlow) (hass : Hass MD)
    (user_input : gmap string pyval) (address : pyval)
    (discovery_info : BluetoothServiceInfoBleak.t MD) :
  user_input !! const.CONF_ADDRESS = Some address ->
  config_flow.select_discovery self hass address = Some discovery_info ->
  address ∉ configured hass ->
  let initial :=
    config_flow.submitted_config address
      (dict_get user_input const.CONF_DEVICE_TYPE (PyStr config_flow.AUTO_DETECT))
      discovery_info in
  let optional := OptionalDeviceConfig.as_dict (OptionalDeviceConfig.from_dict ∅) in
  exists title data,
    snd (config_flow.async_step_user self hass (Some user_input)) =
      Return (config_flow.CreateEntry title data) /\
    (forall k v, optional !! k = Some v -> data !! k = Some v) /\
    (forall k, optional !! k = None ->
               data !! k = InitialDeviceConfig_as_dict initial !! k).
Proof.
  intros Ha Hd Hc initial optional.
  rewrite (async_step_user_submit self hass user_input address discovery_info Ha Hd Hc).
  do 2 eexists. split; [reflexivity |].
  split; intros k; [intros v |]; intros Hk; rewrite dict_merge_lookup;
    fold initial; fold optional; now rewrite Hk.
Qed.

Lemma created_entry_data_witness :
  exists title data,
    snd (config_flow.async_step_user (H := Sample.helpers) (P := Sample.params)
           config_flow.new_flow Sample.hass_fresh (Some (Sample.submit "EP500"))) =
      Return (config_flow.CreateEntry title data) /\
    data !! "polling_timeout" = Some (PyInt 45) /\
    data !! "use_encryption" = Some (PyBool false).
Proof.
  destruct (created_entry_data (H := Sample.helpers) (P := Sample.params)
              config_flow.new_flow Sample.hass_fresh (Sample.submit "EP500")
              (PyStr "AA:BB:CC:DD:EE:FF") Sample.seen)
    as (title & data & E & Hopt & Hinit).
  - reflexivity.
  - reflexivity.
  - intros Hin. inversion Hin.
  - exists title, data. split; [exact E | split].
    + apply Hopt. reflexivity.
    + rewrite Hinit; reflexivity.
Defined.

(** ** The bluetooth step, continued *)

(** A bluetooth discovery never creates an entry.  When the step ends before
    the recogniser is asked, it ends in an abort (the host's [AbortFlow]);
    when the recogniser is asked, then whatever it answers, the step ends in
    an abort, in the form of the user step, or in the exception with which
    the recogniser failed. *)
Theorem bluetooth_step_never_creates {MD : Type} `{H : Helpers MD}
    `{P : OptionalParams} (self : config_flow.BluettiConfigFlow) (hass : Hass MD)
    (discovery_info : BluetoothServiceInfoBleak.t MD) :
  match config_flow.async_step_bluetooth_ask self hass discovery_info with
  | config_flow.Done result =>
      exists reason, snd result = Return (config_flow.Abort reason)
  | config_flow.AskRecogniser _ k =>
      forall recognized,
        (exists reason, snd (k recognized) = Return (config_flow.Abort reason)) \/
        (exists choices,
            snd (k recognized) =
              Return (config_flow.ShowForm "user"
                        (config_flow.UserForm choices config_flow.AUTO_DETECT
                           config_flow.DEVICE_OPTIONS))) \/
        (exists e, recognized = Raise e /\ snd (k recognized) = Raise e)
  end.
Proof.
  unfold config_flow.async_step_bluetooth_ask.
  repeat case_bool_decide; simpl; eauto.
  intros [[recognized |] | e]; simpl; eauto.
  unfold config_flow.async_step_user. case_bool_decide; simpl; eauto.
Qed.

(** For an address that is in progress in another flow or configured
    already, the step does not depend on the recogniser: two hosts that
    differ in the recogniser only give the same result. *)
Theorem bluetooth_step_duplicate_skips_recogniser {MD : Type} `{H : Helpers MD}
    `{P : OptionalParams} (self : config_flow.BluettiConfigFlow) (hass : Hass MD)
    (recognise' : string -> option Recognized.t)
    (discovery_info : BluetoothServiceInfoBleak.t MD) :
  let address := PyStr (BluetoothServiceInfoBleak.address discovery_info) in
  address ∈ in_progress hass \/ address ∈ configured hass ->
  config_flow.async_step_bluetooth self hass discovery_info =
  config_flow.async_step_bluetooth self
    (mkHass (discovered hass) (configured hass) (in_progress hass) recognise')
    discovery_info.
Proof.
  intros address Hdup. subst address.
  unfold config_flow.async_step_bluetooth. simpl.
  repeat case_bool_decide; try reflexivity; tauto.
Qed.

Lemma bluetooth_step_duplicate_skips_recogniser_witness :
  config_flow.async_step_bluetooth (H := Sample.helpers) (P := Sample.params)
    config_flow.new_flow Sample.hass_configured Sample.seen =
  config_flow.async_step_bluetooth (H := Sample.helpers) (P := Sample.params)
    config_flow.new_flow
    (mkHass [Sample.seen] [PyStr "AA:BB:CC:DD:EE:FF"] []
       (fun _ => Some (Recognized.mk "AC300" "AC300-1" (PyInt 2) false)))
    Sample.seen.
Proof.
  apply (bluetooth_step_duplicate_skips_recogniser (H := Sample.helpers)
           (P := Sample.params) config_flow.new_flow Sample.hass_configured
           (fun _ => Some (Recognized.mk "AC300" "AC300-1" (PyInt 2) false))
           Sample.seen).
  right. apply list_elem_of_here.
Defined.

(** A recognised device whose address is new: the flow keeps a record with
    the full name and the manufacturer data of the recognised device. The
    outcome is that of the scan of the snapshot, in which the recognised
    device itself does not count: without a likely name in the snapshot the
    step aborts with "no_devices_found". *)
Theorem bluetooth_step_recognised {MD : Type} `{H : Helpers MD}
    `{P : OptionalParams} (self : config_flow.BluettiConfigFlow) (hass : Hass MD)
    (discovery_info : BluetoothServiceInfoBleak.t MD) (recognized : Recognized.t) :
  let address := BluetoothServiceInfoBleak.address discovery_info in
  PyStr address ∉ in_progress hass ->
  PyStr address ∉ configured hass ->
  recognize_device hass address = Some recognized ->
  let kept :=
    BluetoothServiceInfoBleak.mk address (Recognized.full_name recognized)
      (ManufacturerData_as_dict
         (ManufacturerData.mk (PyStr (Recognized.name recognized))
            (Recognized.encrypted recognized))) in
  let self' :=
    config_flow.mkFlow (Some kept) (Some (PyStr address))
      (Some (Recognized.full_name recognized)) in
  fst (config_flow.async_step_bluetooth self hass discovery_info) = self' /\
  (Forall (fun si =>
             config_flow.likely_bluetti (BluetoothServiceInfoBleak.name si) = false)
     (discovered hass) ->
   snd (config_flow.async_step_bluetooth self hass discovery_info) =
     Return (config_flow.Abort "no_devices_found")).
Proof.
  intros address Hp Hc Hrec kept self'.
  unfold config_flow.async_step_bluetooth. fold address.
  rewrite !bool_decide_eq_false_2 by assumption. rewrite Hrec.
  unfold config_flow.async_step_user. split.
  - case_bool_decide; reflexivity.
  - intros Hall. now rewrite bool_decide_eq_true_2 by now apply scan_choices_empty.
Qed.

Lemma bluetooth_step_recognised_witness :
  let hass :=
    mkHass (MD := ManufacturerData.t) [] [] []
      (fun _ => Some (Recognized.mk "AC300" "AC300-1234" (PyInt 9) true)) in
  snd (config_flow.async_step_bluetooth (H := Sample.helpers) (P := Sample.params)
         config_flow.new_flow hass Sample.seen) =
    Return (config_flow.Abort "no_devices_found").
Proof.
  intros hass.
  apply (bluetooth_step_recognised (H := Sample.helpers) (P := Sample.params)
           config_flow.new_flow hass Sample.seen
           (Recognized.mk "AC300" "AC300-1234" (PyInt 9) true)).
  - intros Hin. inversion Hin.
  - intros Hin. inversion Hin.
  - reflexivity.
  - constructor.
Defined.

(** A recognised device that is then submitted with "Auto Detect", while the
    snapshot has no record with its address: the entry is built from the
    record that the bluetooth step kept. Provided the manufacturer data
    survive their dictionary form, the device type is the recognised name,
    the encryption flag the recognised one, and the name the sanitised full
    name. *)
Theorem bluetooth_then_submit {MD : Type} `{H : Helpers MD} `{P : OptionalParams}
    (self : config_flow.BluettiConfigFlow) (hass hass' : Hass MD)
    (discovery_info : BluetoothServiceInfoBleak.t MD) (recognized : Recognized.t)
    (user_input : gmap string pyval) :
  let address := BluetoothServiceInfoBleak.address discovery_info in
  let md :=
    ManufacturerData.mk (PyStr (Recognized.name recognized))
      (Recognized.encrypted recognized) in
  PyStr address ∉ in_progress hass ->
  PyStr address ∉ configured hass ->
  recognize_device hass address = Some recognized ->
  ManufacturerData_from_dict (ManufacturerData_as_dict md) = md ->
  user_input !! const.CONF_ADDRESS = Some (PyStr address) ->
  dict_get user_input const.CONF_DEVICE_TYPE (PyStr config_flow.AUTO_DETECT) =
    PyStr config_flow.AUTO_DETECT ->
  Forall (fun si => BluetoothServiceInfoBleak.address si <> address)
    (discovered hass') ->
  PyStr address ∉ configured hass' ->
  let self' := fst (config_flow.async_step_bluetooth self hass discovery_info) in
  let initial :=
    InitialDeviceConfig.mk (PyStr address)
      (sanitize (Recognized.full_name recognized))
      (PyStr (Recognized.name recognized))
      (Recognized.encrypted recognized) in
  snd (config_flow.async_step_user self' hass' (Some user_input)) =
    Return (config_flow.CreateEntry (sanitize (Recognized.full_name recognized))
              (dict_merge (InitialDeviceConfig_as_dict initial)
                 (OptionalDeviceConfig.as_dict
                    (OptionalDeviceConfig.from_dict ∅)))).
Proof.
  intros address md Hp Hc Hrec Hround Ha Hauto Hall Hc' self' initial.
  assert (Hkept : config_flow._discovery_info self' =
                  Some (BluetoothServiceInfoBleak.mk address
                          (Recognized.full_name recognized)
                          (ManufacturerData_as_dict md))).
  { subst self'. unfold config_flow.async_step_bluetooth. fold address.
    rewrite !bool_decide_eq_false_2 by assumption. rewrite Hrec.
    unfold config_flow.async_step_user. case_bool_decide; reflexivity. }
  erewrite async_step_user_submit; [| exact Ha | | exact Hc'].
  2:{ rewrite select_discovery_fallback; [exact Hkept |].
      eapply Forall_impl; [exact Hall |]. intros si Hne. simpl. congruence. }
  simpl. unfold config_flow.submitted_config. simpl.
  rewrite Hauto, Hround. reflexivity.
Qed.

Lemma bluetooth_then_submit_witness :
  let hass :=
    mkHass (MD := ManufacturerData.t) [] [] []
      (fun _ => Some (Recognized.mk "AC300" "AC300-1234" (PyInt 9) true)) in
  exists data,
    snd (config_flow.async_step_user (H := Sample.helpers) (P := Sample.params)
           (fst (config_flow.async_step_bluetooth (H := Sample.helpers)
                   (P := Sample.params) config_flow.new_flow hass Sample.seen))
           Sample.hass_empty (Some (Sample.submit "Auto Detect"))) =
      Return (config_flow.CreateEntry "AC3001234" data) /\
    data !! "type" = Some (PyStr "AC300") /\
    data !! "use_encryption" = Some (PyBool true).
Proof.
  intros hass. eexists. split; [| split].
  - apply (bluetooth_then_submit (H := Sample.helpers) (P := Sample.params)
             config_flow.new_flow hass Sample.hass_empty Sample.seen
             (Recognized.mk "AC300" "AC300-1234" (PyInt 9) true)
             (Sample.submit "Auto Detect")).
    + intros Hin. inversion Hin.
    + intros Hin. inversion Hin.
    + reflexivity.
    + reflexivity.
    + reflexivity.
    + reflexivity.
    + constructor.
    + intros Hin. inversion Hin.
  - reflexivity.
  - reflexivity.
Defined.

(** ** The options flow, continued *)

(** The device type preselected in the options form: the one stored in the
    options of the entry; without it the one stored in the data of the entry;
    without both "Auto Detect".  The entry is left as it is. *)
Theorem options_form_current_type `{P : OptionalParams}
    (config_entry : config_flow.ConfigEntry) :
  exists defaults current_type,
    config_flow.async_step_init config_entry None =
      (config_entry,
       config_flow.ShowForm "init"
         (config_flow.InitForm defaults current_type config_flow.DEVICE_OPTIONS)) /\
    (forall v, config_flow.entry_options config_entry !! const.CONF_DEVICE_TYPE = Some v ->
               current_type = v) /\
    (forall v, config_flow.entry_options config_entry !! const.CONF_DEVICE_TYPE = None ->
               config_flow.entry_data config_entry !! const.CONF_DEVICE_TYPE = Some v ->
               current_type = v) /\
    (config_flow.entry_options config_entry !! const.CONF_DEVICE_TYPE = None ->
     config_flow.entry_data config_entry !! const.CONF_DEVICE_TYPE = None ->
     current_type = PyStr config_flow.AUTO_DETECT).
Proof.
  do 2 eexists. split; [reflexivity |]. unfold dict_get.
  repeat split; intros; repeat match goal with Hx : _ !! _ = _ |- _ => rewrite Hx end;
    reflexivity.
Qed.

Lemma options_form_current_type_witness :
  let entry :=
    config_flow.mkEntry (<[const.CONF_DEVICE_TYPE := PyStr "AC300"]> ∅)
      (<[const.CONF_DEVICE_TYPE := PyStr "EP600"]> ∅) in
  exists defaults,
    snd (config_flow.async_step_init (P := Sample.params) entry None) =
      config_flow.ShowForm "init"
        (config_flow.InitForm defaults (PyStr "EP600") config_flow.DEVICE_OPTIONS).
Proof.
  intros entry.
  destruct (options_form_current_type (P := Sample.params) entry)
    as (defaults & current_type & E & Hopt & _).
  exists defaults. rewrite E. simpl.
  now rewrite (Hopt (PyStr "EP600") eq_refl).
Defined.

(** An accepted edit of the options: in the data of the entry, the keys of
    the new settings get their new values and every other key keeps its
    stored value; the options of the entry are not written by the step; the
    returned record holds the new settings and, under the device-type key,
    the selected type, [None] when the input has none. *)
Theorem options_edit_accepted `{P : OptionalParams}
    (config_entry : config_flow.ConfigEntry) (user_input : gmap string pyval) :
  let config := OptionalDeviceConfig.from_dict user_input in
  let settings := OptionalDeviceConfig.as_dict config in
  OptionalDeviceConfig.validate config = None ->
  exists entry' data,
    config_flow.async_step_init config_entry (Some user_input) =
      (entry', config_flow.CreateEntry "" data) /\
    config_flow.entry_options entry' = config_flow.entry_options config_entry /\
    (forall k v, settings !! k = Some v ->
                 config_flow.entry_data entry' !! k = Some v) /\
    (forall k, settings !! k = None ->
               config_flow.entry_data entry' !! k =
               config_flow.entry_data config_entry !! k) /\
    data !! const.CONF_DEVICE_TYPE =
      Some (dict_get user_input const.CONF_DEVICE_TYPE PyNone) /\
    (forall k, k <> const.CONF_DEVICE_TYPE -> data !! k = settings !! k).
Proof.
  intros config settings Hvalid. unfold config_flow.async_step_init.
  fold config. rewrite Hvalid. fold settings. do 2 eexists.
  split; [reflexivity |]. simpl.
  split; [reflexivity | split; [| split; [| split]]].
  - intros k v Hk. rewrite dict_merge_lookup. now rewrite Hk.
  - intros k Hk. rewrite dict_merge_lookup. now rewrite Hk.
  - apply lookup_insert_eq.
  - intros k Hk. now apply lookup_insert_ne.
Qed.

Lemma options_edit_accepted_witness :
  let entry :=
    config_flow.mkEntry
      (<["address" := PyStr "AA:BB:CC:DD:EE:FF"]>
         (<[OptionalDeviceConfig.CONF_POLLING_INTERVAL := PyInt 20]> ∅)) ∅ in
  let user_input : gmap string pyval :=
    <[OptionalDeviceConfig.CONF_POLLING_INTERVAL := PyInt 60]> ∅ in
  exists entry' data,
    config_flow.async_step_init (P := Sample.params) entry (Some user_input) =
      (entry', config_flow.CreateEntry "" data) /\
    config_flow.entry_data entry' !! "polling_interval" = Some (PyInt 60) /\
    config_flow.entry_data entry' !! "address" = Some (PyStr "AA:BB:CC:DD:EE:FF") /\
    data !! const.CONF_DEVICE_TYPE = Some PyNone.
Proof.
  intros entry user_input.
  destruct (options_edit_accepted (P := Sample.params) entry user_input)
    as (entry' & data & E & _ & Hnew & Hold & Htype & _).
  - reflexivity.
  - exists entry', data. split; [exact E |]. split; [| split].
    + apply Hnew. reflexivity.
    + rewrite Hold; reflexivity.
    + rewrite Htype. reflexivity.
Defined.

(** ** FullDeviceConfig.from_dict, continued *)

(** A raw record is rebuilt exactly when its initial part can be decoded.
    The address, the name and the encryption flag are then those of the
    initial part, the three settings those decoded from the same record, and
    the device type is the value under the device-type key, or that of the
    initial part when the record has no such key. *)
Theorem full_from_dict_fields {MD : Type} `{H : Helpers MD} `{P : OptionalParams}
    (raw : gmap string pyval) :
  (is_Some (FullDeviceConfig.from_dict raw) <->
   is_Some (InitialDeviceConfig_from_dict raw)) /\
  (forall initial full,
      InitialDeviceConfig_from_dict raw = Some initial ->
      FullDeviceConfig.from_dict raw = Some full ->
      FullDeviceConfig.address full = InitialDeviceConfig.address initial /\
      FullDeviceConfig.name full = InitialDeviceConfig.name initial /\
      FullDeviceConfig.use_encryption full = InitialDeviceConfig.use_encryption initial /\
      FullDeviceConfig.dev_type full =
        default (InitialDeviceConfig.dev_type initial) (raw !! const.CONF_DEVICE_TYPE) /\
      FullDeviceConfig.polling_interval full =
        OptionalDeviceConfig.polling_interval (OptionalDeviceConfig.from_dict raw) /\
      FullDeviceConfig.polling_timeout full =
        OptionalDeviceConfig.polling_timeout (OptionalDeviceConfig.from_dict raw) /\
      FullDeviceConfig.max_retries full =
        OptionalDeviceConfig.max_retries (OptionalDeviceConfig.from_dict raw)).
Proof.
  unfold FullDeviceConfig.from_dict. split.
  - destruct (InitialDeviceConfig_from_dict raw); split; intros [x Hx];
      try discriminate; eauto.
  - intros initial full ->. intros [= <-].
    destruct (raw !! const.CONF_DEVICE_TYPE); simpl; repeat split.
Qed.

Lemma full_from_dict_fields_witness :
  exists full,
    FullDeviceConfig.from_dict (H := Sample.helpers) (P := Sample.params)
      Sample.stored = Some full /\
    FullDeviceConfig.name full = "AC300" /\
    FullDeviceConfig.dev_type full = PyStr "EP600" /\
    FullDeviceConfig.polling_timeout full = 45.
Proof.
  destruct (full_from_dict_fields (H := Sample.helpers) (P := Sample.params)
              Sample.stored) as [Hsome Hfields].
  destruct (proj2 Hsome) as [full Hfull]; [now eexists |].
  exists full. split; [exact Hfull |].
  destruct (Hfields
              (InitialDeviceConfig.mk (PyStr "AA:BB:CC:DD:EE:FF") "AC300"
                 (PyStr "AC300") false) full eq_refl Hfull)
    as (_ & Hn & _ & Ht & _ & Hto & _).
  rewrite Hn, Ht, Hto. repeat split.
Defined.

(** [from_dict] takes the value under the device-type key as it is: a stored
    "Auto Detect" becomes the device type, whatever the initial part says,
    and when [build_device] does not know "Auto Detect" no coordinator can be
    constructed from the result: the constructor raises, and what it raises
    is [ConfigEntryNotReady] when the stored polling interval is one that
    [timedelta] accepts. *)
Theorem stored_auto_detect_not_ready {MD : Type} `{H : Helpers MD}
    `{P : OptionalParams} {Dev Lock : Type} (build_device : pyval -> option Dev)
    (lock : Lock) (raw : gmap string pyval) (initial : InitialDeviceConfig.t) :
  InitialDeviceConfig_from_dict raw = Some initial ->
  raw !! const.CONF_DEVICE_TYPE = Some (PyStr config_flow.AUTO_DETECT) ->
  build_device (PyStr config_flow.AUTO_DETECT) = None ->
  exists full,
    FullDeviceConfig.from_dict raw = Some full /\
    FullDeviceConfig.dev_type full = PyStr config_flow.AUTO_DETECT /\
    (exists e, snd (coordinator.__init__ build_device full lock) = Raise e) /\
    (coordinator.timedelta_ok (FullDeviceConfig.polling_interval full) = true ->
     snd (coordinator.__init__ build_device full lock) =
       Raise (ConfigEntryNotReady "Unsupported Bluetti device type: "
                (PyStr config_flow.AUTO_DETECT))).
Proof.
  intros Hi Hk Hb. eexists. split; [| split; [| split]].
  - exact (full_from_dict_override raw initial _ Hi Hk).
  - reflexivity.
  - unfold coordinator.__init__. simpl. rewrite Hb.
    destruct (coordinator.timedelta_ok _); simpl; eauto.
  - intros Hok. unfold coordinator.__init__. simpl in *. now rewrite Hok, Hb.
Qed.

Lemma stored_auto_detect_not_ready_witness :
  let build_device (dev_type : pyval) : option unit :=
    if bool_decide (dev_type = PyStr "AC300") then Some tt else None in
  let raw : gmap string pyval :=
    <[const.CONF_DEVICE_TYPE := PyStr "Auto Detect"]> Sample.stored in
  exists full,
    FullDeviceConfig.from_dict (H := Sample.helpers) (P := Sample.params) raw =
      Some full /\
    snd (coordinator.__init__ (H := Sample.helpers) build_device full 0%nat) =
      Raise (ConfigEntryNotReady "Unsupported Bluetti device type: "
               (PyStr "Auto Detect")).
Proof.
  intros build_device raw.
  destruct (stored_auto_detect_not_ready (H := Sample.helpers) (P := Sample.params)
              build_device 0%nat raw
              (InitialDeviceConfig.mk (PyStr "AA:BB:CC:DD:EE:FF") "AC300"
                 (PyStr "AC300") false))
    as (full & Hfull & _ & _ & Hraise).
  - reflexivity.
  - reflexivity.
  - reflexivity.
  - exists full. split; [exact Hfull |]. apply Hraise.
    injection Hfull as <-. reflexivity.
Defined.

(** ** The polling coordinator, continued *)

(** The constructor returns a coordinator exactly when [timedelta] accepts
    the polling interval and [build_device] knows the device type; when
    [timedelta] does not accept the interval, it raises [OverflowError]
    before any call.  A coordinator starts with [last_update_success] set,
    polls at [polling_interval], and its reader, created after
    [build_device] has answered, has the address, the lock,
    [polling_timeout] as its timeout and the encryption flag of the
    configuration. *)
Theorem coordinator_init_result {MD : Type} `{H : Helpers MD} {Dev Lock : Type}
    (build_device : pyval -> option Dev) (config : FullDeviceConfig.t)
    (lock : Lock) :
  ((exists c, snd (coordinator.__init__ build_device config lock) = Return c) <->
   coordinator.timedelta_ok (FullDeviceConfig.polling_interval config) = true /\
   is_Some (build_device (FullDeviceConfig.dev_type config))) /\
  (coordinator.timedelta_ok (FullDeviceConfig.polling_interval config) = false ->
   coordinator.__init__ build_device config lock = ([], Raise OverflowError)) /\
  (forall c, snd (coordinator.__init__ build_device config lock) = Return c ->
     coordinator.config c = config /\
     coordinator.last_update_success c = true /\
     coordinator.update_interval c = FullDeviceConfig.polling_interval config /\
     (exists bluetti_device,
        build_device (FullDeviceConfig.dev_type config) = Some bluetti_device /\
        coordinator.reader c =
          coordinator.mkReader (FullDeviceConfig.address config) bluetti_device
            (coordinator.mkReaderConfig (FullDeviceConfig.polling_timeout config)
               (FullDeviceConfig.use_encryption config))
            lock) /\
     exists before,
       fst (coordinator.__init__ build_device config lock) =
         (before ++ [coordinator.EvBuildDevice (FullDeviceConfig.dev_type config);
                     coordinator.EvNewReader (coordinator.reader c)])%list).
Proof.
  unfold coordinator.__init__.
  destruct (coordinator.timedelta_ok (FullDeviceConfig.polling_interval config));
    simpl.
  - destruct (build_device (FullDeviceConfig.dev_type config)) as [d |]; simpl.
    + split; [split; eauto |]. split; [discriminate |].
      intros c [= <-]. simpl. repeat split; eauto.
      now eexists [_; _].
    + split; [split; [intros [c [=]] | intros [_ [x [=]]]] |].
      split; [discriminate |]. intros c [=].
  - split; [split; [intros [c [=]] | intros [[=] _]] |].
    split; [reflexivity |]. intros c [=].
Qed.

Lemma coordinator_init_result_witness :
  let build_device (dev_type : pyval) : option unit :=
    if bool_decide (dev_type = PyStr "AC300") then Some tt else None in
  let config :=
    FullDeviceConfig.mk (PyStr "AA:BB:CC:DD:EE:FF") "AC300" (PyStr "AC300")
      true 10 45 5 in
  let config_huge :=
    FullDeviceConfig.mk (PyStr "AA:BB:CC:DD:EE:FF") "AC300" (PyStr "AC300")
      true 100000000000000 45 5 in
  (exists c,
      snd (coordinator.__init__ (H := Sample.helpers) build_device config 7%nat) =
        Return c /\
      coordinator.rc_timeout (coordinator.rd_config (coordinator.reader c)) = 45 /\
      coordinator.rd_lock (coordinator.reader c) = 7%nat) /\
  coordinator.__init__ (H := Sample.helpers) build_device config_huge 7%nat =
    ([], Raise OverflowError).
Proof.
  intros build_device config config_huge. split.
  - destruct (coordinator_init_result (H := Sample.helpers) build_device config 7%nat)
      as (Hiff & _ & Hfields).
    destruct (proj2 Hiff) as [c Hc]; [split; [reflexivity | now eexists] |].
    exists c. split; [exact Hc |].
    destruct (Hfields c Hc) as (_ & _ & _ & (d & _ & ->) & _). split; reflexivity.
  - destruct (coordinator_init_result (H := Sample.helpers) build_device config_huge
                7%nat) as (_ & Hover & _).
    apply Hover. reflexivity.
Defined.

(** The name and [max_retries] of the configuration play no part in the
    construction: two configurations that differ in them only lead to the
    same calls and, when a coordinator results, to the same reader and the
    same polling interval. *)
Theorem coordinator_init_ignores_name_and_retries {MD : Type} `{H : Helpers MD}
    {Dev Lock : Type} (build_device : pyval -> option Dev)
    (config : FullDeviceConfig.t) (lock : Lock) (name' : string) (retries' : Z) :
  let config' :=
    FullDeviceConfig.mk (FullDeviceConfig.address config) name'
      (FullDeviceConfig.dev_type config) (FullDeviceConfig.use_encryption config)
      (FullDeviceConfig.polling_interval config)
      (FullDeviceConfig.polling_timeout config) retries' in
  fst (coordinator.__init__ build_device config' lock) =
    fst (coordinator.__init__ build_device config lock) /\
  match snd (coordinator.__init__ build_device config' lock),
        snd (coordinator.__init__ build_device config lock) with
  | Return c', Return c =>
      coordinator.reader c' = coordinator.reader c /\
      coordinator.update_interval c' = coordinator.update_interval c
  | Raise e', Raise e => e' = e
  | _, _ => False
  end.
Proof.
  intros config'. unfold coordinator.__init__, coordinator.logger_name. simpl.
  destruct (coordinator.timedelta_ok (FullDeviceConfig.polling_interval config));
    simpl; auto.
  destruct (build_device (FullDeviceConfig.dev_type config)); simpl; auto.
Qed.

(** One tick changes nothing of the coordinator but [last_update_success],
    which is set after the tick exactly when it was set before and the
    address was present: the update itself never sets it.  The reader is
    asked to read exactly on the ticks on which the address is present. *)
Theorem update_data_invariants {Dev T Lock : Type}
    (self : coordinator.PollingCoordinator (Dev := Dev) (Lock := Lock))
    (w : coordinator.tick (T := T)) :
  let self' := fst (fst (coordinator._async_update_data self w)) in
  let calls := snd (fst (coordinator._async_update_data self w)) in
  coordinator.config self' = coordinator.config self /\
  coordinator.reader self' = coordinator.reader self /\
  coordinator.name self' = coordinator.name self /\
  coordinator.update_interval self' = coordinator.update_interval self /\
  coordinator.last_update_success self' =
    coordinator.last_update_success self && coordinator.address_present w /\
  (Exists (fun e => coordinator.takes_lock e = true) calls <->
   coordinator.address_present w = true).
Proof.
  unfold coordinator._async_update_data.
  destruct (coordinator.address_present w); simpl.
  - rewrite andb_true_r. repeat split; auto;
      try (intros _; constructor; reflexivity).
  - rewrite andb_false_r. repeat split; try discriminate;
      try (intros Hex; inversion Hex as [? ? Hb | ? ? Hb];
           [discriminate | inversion Hb]).
Qed.
